(** * LibreCrawl — Selector Search plugin

    A shallow embedding of [web/static/plugins/selector-search.js]: the
    structural matcher [countSelectorMatches], the orchestration loop of
    [performSearch] (batches of five asynchronous page tasks, progress
    accounting, sorting), the part of [render] that wires the search
    controls, and the total computed by [renderResults].

    JavaScript values are modelled as follows.
    - Strings are [string]; each [ascii] stands for one code unit in the range
      U+0000..U+00FF.
    - Integers (status codes, counts, the [processed] counter) are [Z].
    - The one floating-point computation, the progress percentage, is carried
      out in IEEE-754 binary64 with the operations of [SpecFloat].
    - [try]/[catch]/[finally] are combinators of a small state-and-exception
      monad in which mutations made before a [throw] persist.
    - An [async] callback is a computation that either runs to completion
      synchronously or suspends once, at the network round trip; the order in
      which the suspended callbacks of one batch resume is chosen by a
      schedule that every statement quantifies over. *)

From Stdlib Require Import ZArith List String Ascii Bool Lia.
From Stdlib Require Import Permutation Sorted DecimalString.
From Stdlib Require Import Floats.SpecFloat.
Import ListNotations.

Local Open Scope string_scope.
Local Open Scope list_scope.
Local Open Scope Z_scope.

(* ===================================================================== *)
(** ** JavaScript values and primitives *)
(* ===================================================================== *)

Module JS.

(** The values that reach this plugin from JSON: strings, [null], and
    absent properties. *)
Inductive value : Type :=
| Undefined
| Null
| Str (s : string).

(** ToBoolean on these values: only a non-empty string is truthy. *)
Definition truthy (v : value) : bool :=
  match v with
  | Str s => negb (s =? "")%string
  | _ => false
  end.

(** [a || b] *)
Definition or (a b : value) : value := if truthy a then a else b.

(** ToString, as used by [+] and template literals. *)
Definition to_string (v : value) : string :=
  match v with
  | Undefined => "undefined"
  | Null => "null"
  | Str s => s
  end.

(** A thrown [Error] object; only its [message] is ever read. *)
Record Error : Type := { message : value }.

(** The completion of an evaluation: normal, or abrupt by [throw]. *)
Inductive completion (A : Type) : Type :=
| Normal (a : A)
| Throw (e : Error).
Arguments Normal {A} a.
Arguments Throw {A} e.

(** [try { body } catch (e) { handler e }] for effect-free code. *)
Definition try_catch {A} (body : completion A) (handler : Error -> completion A)
  : completion A :=
  match body with
  | Normal a => Normal a
  | Throw e => handler e
  end.

Definition bind {A B} (c : completion A) (k : A -> completion B) : completion B :=
  match c with
  | Normal a => k a
  | Throw e => Throw e
  end.

(** *** String.prototype.trim

    WhiteSpace and LineTerminator code units below U+0100:
    TAB, LF, VT, FF, CR, SP and NBSP. *)
Definition is_white_space (c : ascii) : bool :=
  let n := N_of_ascii c in
  ((9 <=? n) && (n <=? 13) || (n =? 32) || (n =? 160))%N.

Fixpoint trimStart (s : string) : string :=
  match s with
  | EmptyString => EmptyString
  | String c rest => if is_white_space c then trimStart rest else s
  end.

Fixpoint trimEnd (s : string) : string :=
  match s with
  | EmptyString => EmptyString
  | String c rest =>
      let rest' := trimEnd rest in
      if is_white_space c && (rest' =? "")%string then EmptyString
      else String c rest'
  end.

Definition trim (s : string) : string := trimEnd (trimStart s).

(** *** String.prototype.includes *)
Fixpoint includes (s search : string) : bool :=
  String.prefix search s ||
  match s with
  | EmptyString => false
  | String _ rest => includes rest search
  end.

(** [v.includes(search)] for a [v] that is known to be a string. *)
Definition value_includes (v : value) (search : string) : bool :=
  match v with
  | Str s => includes s search
  | _ => false
  end.

(** *** Array.prototype.slice(i, j) for 0 <= i <= j *)
Definition slice {A} (l : list A) (i j : nat) : list A :=
  firstn (j - i) (skipn i l).

(** *** Array.prototype.sort(cmp): a stable sort (ECMAScript 2019).

    [cmp a b < 0] places [a] first, [cmp a b > 0] places [b] first, and
    elements that compare equal keep their order. *)
Fixpoint sort_insert {A} (cmp : A -> A -> Z) (x : A) (l : list A) : list A :=
  match l with
  | [] => [x]
  | y :: l' => if cmp x y <=? 0 then x :: l else y :: sort_insert cmp x l'
  end.

Definition sort {A} (cmp : A -> A -> Z) (l : list A) : list A :=
  fold_right (sort_insert cmp) [] l.

(** *** Numbers: IEEE-754 binary64 *)
Definition prec : Z := 53.
Definition emax : Z := 1024.
Definition number : Type := spec_float.

Definition of_Z (z : Z) : number := binary_normalize prec emax z 0 false.
Definition div (x y : number) : number := SFdiv prec emax x y.
Definition mul (x y : number) : number := SFmul prec emax x y.

(** Math.round: the nearest integer, ties towards +infinity; [None] stands
    for NaN and the infinities, which it returns unchanged. *)
Definition Math_round (x : number) : option Z :=
  match x with
  | S754_zero _ => Some 0
  | S754_finite s m e =>
      let sm := if s then Z.neg m else Z.pos m in
      match e with
      | Z.neg k => Some ((2 * sm + 2 ^ Z.pos k) / 2 ^ (Z.pos k + 1))
      | _ => Some (sm * 2 ^ e)
      end
  | _ => None
  end.

(** Decimal rendering of an array length inside a template literal. *)
Definition string_of_nat (n : nat) : string :=
  NilZero.string_of_uint (Nat.to_uint n).

Definition dquote : string := String (ascii_of_nat 34) EmptyString.

End JS.

Import JS(Normal, Throw, Str, Null, Undefined).

(* ===================================================================== *)
(** ** Data model *)
(* ===================================================================== *)

(** One entry of [data.urls] as served by [/api/crawl_status]. *)
Module UrlData.
Record t : Type := {
  url : string;
  status_code : Z;
  content_type : JS.value;
  title : JS.value
}.
End UrlData.

(** One element of the [results] array. *)
Module Result.
Record t : Type := {
  url : string;
  title : JS.value;
  count : Z;
  status_code : Z
}.
End Result.

(** [this.searchState], initialised by [onLoad]. *)
Module SearchState.
Record t : Type := {
  selector : string;
  isSearching : bool;
  results : list Result.t;
  error : JS.value
}.
End SearchState.

Definition onLoad : SearchState.t :=
  {| SearchState.selector := "";
     SearchState.isSearching := false;
     SearchState.results := [];
     SearchState.error := Null |}.

(** The JSON body answered by [/api/fetch_html]. *)
Record HtmlData : Type := { success : bool; html : JS.value }.

(** The JSON body answered by [/api/crawl_status]; [urls] may be absent. *)
Record CrawlData : Type := { urls : option (list UrlData.t) }.

(** ** The environment of the plugin *)

(** The browser's document engine: [DOMParser.parseFromString] and
    [Document.querySelectorAll], which throws a SyntaxError on a selector it
    cannot parse. *)
Class Browser : Type := {
  Document : Type;
  Element : Type;
  parseFromString : string -> JS.completion Document;
  querySelectorAll : Document -> string -> JS.completion (list Element)
}.

(** The two HTTP endpoints.  A [Throw] stands for a rejected [fetch] or a
    rejected [response.json()]. *)
Record Network : Type := {
  crawl_status : JS.completion CrawlData;
  fetch_html : string -> JS.completion HtmlData
}.

(** What [performSearch] finds in the page: the value of [#selector-input]
    ([None] when the element is missing), whether [this.container] is set and
    whether [#search-btn] exists. *)
Record Dom : Type := {
  selector_input : option string;
  container : bool;
  search_btn : bool
}.

(** Observable actions, in the order they happen. *)
Inductive Event : Type :=
| GetCrawlStatus                      (* fetch('/api/crawl_status') *)
| PostFetchHtml (url : string)        (* fetch('/api/fetch_html', {url}) is issued *)
| Settled (url : string)              (* the page's async callback has returned *)
| ButtonText (progress : option Z).   (* btn.textContent = `Searching... ${progress}%` *)

(** [utils.showNotification(message, kind)] *)
Inductive Kind : Type := KError | KInfo | KSuccess.
Definition Notification : Type := (string * Kind)%type.

(* ===================================================================== *)
(** ** The local variables of one [performSearch] call *)
(* ===================================================================== *)

Module Run.
Record t : Type := {
  results : list Result.t;   (* const results = [] *)
  processed : Z;             (* let processed = 0 *)
  trace : list Event         (* what has happened so far; not a program variable *)
}.

Definition init : t := {| results := []; processed := 0; trace := [] |}.

Definition push (r : Result.t) (s : t) : t :=
  {| results := results s ++ [r]; processed := processed s; trace := trace s |}.

Definition incr (s : t) : t :=
  {| results := results s; processed := processed s + 1; trace := trace s |}.

Definition emit (e : Event) (s : t) : t :=
  {| results := results s; processed := processed s; trace := trace s ++ [e] |}.
End Run.

(** Statements that read and write these variables and may throw.  The state
    reached at the point of a [throw] is kept. *)
Definition M (A : Type) : Type := Run.t -> Run.t * JS.completion A.

Definition ret {A} (a : A) : M A := fun s => (s, Normal a).

Definition bind {A B} (m : M A) (k : A -> M B) : M B :=
  fun s =>
    let (s1, r) := m s in
    match r with
    | Normal a => k a s1
    | Throw e => (s1, Throw e)
    end.

Definition lift {A} (c : JS.completion A) : M A := fun s => (s, c).

Definition modify (f : Run.t -> Run.t) : M unit := fun s => (f s, Normal tt).

(** [try { body } catch (e) { handler e }] *)
Definition try_catch {A} (body : M A) (handler : JS.Error -> M A) : M A :=
  fun s =>
    let (s1, r) := body s in
    match r with
    | Normal a => (s1, Normal a)
    | Throw e => handler e s1
    end.

(** [try { body } finally { fin }]: [fin] runs however [body] completes, and
    also when [body] leaves through [return]. *)
Definition try_finally {A} (body : M A) (fin : M unit) : M A :=
  fun s =>
    let (s1, r) := body s in
    let (s2, f) := fin s1 in
    match f with
    | Normal _ => (s2, r)
    | Throw e => (s2, Throw e)
    end.

Declare Scope js_scope.
Delimit Scope js_scope with js.
Notation "x <- m ;; k" := (bind m (fun x => k))
  (at level 61, m at next level, right associativity) : js_scope.
Notation "m ;; k" := (bind m (fun _ => k))
  (at level 61, right associativity) : js_scope.

(** An [async] function body with at most one suspension point.  The
    callback of [performSearch] awaits twice in a row, the request and the
    decoding of its body; nothing happens in between, so the two are taken
    as one round trip whose answer is the decoded body or a rejection. *)
Inductive async (A : Type) : Type :=
| Sync (m : M A)
| Await (url : string) (k : JS.completion HtmlData -> M A).
Arguments Sync {A} m.
Arguments Await {A} url k.

(** [try { ... } catch (e) { ... } finally { ... }] around an [async] body.
    Nothing precedes the suspension point of [Await], so the handlers wrap
    either the whole synchronous body or the continuation. *)
Definition async_try_catch_finally {A}
  (body : async A) (handler : JS.Error -> M A) (fin : M unit) : async A :=
  match body with
  | Sync m => Sync (try_finally (try_catch m handler) fin)
  | Await u k => Await u (fun r => try_finally (try_catch (k r) handler) fin)
  end.

(* ===================================================================== *)
(** ** The plugin *)
(* ===================================================================== *)

Section Plugin.

Context {browser : Browser}.
Variable net : Network.

(** *** countSelectorMatches(html, selector) *)
Definition countSelectorMatches (html selector : string) : JS.completion Z :=
  JS.try_catch
    (JS.bind (parseFromString html) (fun doc =>
       JS.try_catch
         (JS.bind (querySelectorAll doc selector) (fun elements =>
            Normal (Z.of_nat (List.length elements))))
         (fun e =>
            (* Invalid selector *)
            Throw {| JS.message :=
                       Str ("Invalid CSS selector: " ++ selector)%string |})))
    (fun error =>
       (* console.warn('DOMParser failed, using regex fallback:', error) *)
       Normal 0).

(** *** The callback passed to [batch.map] *)
Definition page_task (selector : string) (urlData : UrlData.t) : async unit :=
  async_try_catch_finally
    ((* Only search HTML pages *)
     if negb (UrlData.status_code urlData =? 200) then
       Sync (modify Run.incr ;; ret tt)%js
     else
       let contentType := JS.or (UrlData.content_type urlData) (Str "") in
       if negb (JS.value_includes contentType "text/html") then
         Sync (modify Run.incr ;; ret tt)%js
       else
         (* Fetch HTML *)
         Await (UrlData.url urlData) (fun response =>
           htmlData <- lift response ;;
           if success htmlData && JS.truthy (html htmlData) then
             (* Parse HTML and search for selector *)
             count <- lift (countSelectorMatches
                              (JS.to_string (html htmlData)) selector) ;;
             if count >? 0 then
               modify (Run.push
                 {| Result.url := UrlData.url urlData;
                    Result.title :=
                      JS.or (UrlData.title urlData) (Str (UrlData.url urlData));
                    Result.count := count;
                    Result.status_code := UrlData.status_code urlData |})
             else ret tt
           else ret tt)%js)
    (fun error =>
       (* console.error(`Error processing ${urlData.url}:`, error) *)
       ret tt)
    (modify Run.incr).

(** *** Promise.all(batch.map(async (urlData) => ...)) *)

(** A promise returned by the callback: already settled, or waiting for
    its network round trip. *)
Inductive promise : Type :=
| Resolved (r : JS.completion unit)
| Pending (urlData : UrlData.t) (k : JS.completion HtmlData -> M unit).

(** [batch.map] calls the callback on each element in order; every call
    runs synchronously up to its suspension point. *)
Fixpoint map_start (selector : string) (batch : list UrlData.t) (s : Run.t)
  : Run.t * list promise :=
  match batch with
  | [] => (s, [])
  | urlData :: rest =>
      match page_task selector urlData with
      | Sync m =>
          let (s1, r) := m s in
          let (s2, ps) :=
            map_start selector rest (Run.emit (Settled (UrlData.url urlData)) s1) in
          (s2, Resolved r :: ps)
      | Await u k =>
          let (s2, ps) := map_start selector rest (Run.emit (PostFetchHtml u) s) in
          (s2, Pending urlData k :: ps)
      end
  end.

Fixpoint first_rejection (ps : list promise) : option JS.Error :=
  match ps with
  | [] => None
  | Resolved (Throw e) :: _ => Some e
  | _ :: rest => first_rejection rest
  end.

Fixpoint pending (ps : list promise)
  : list (UrlData.t * (JS.completion HtmlData -> M unit)) :=
  match ps with
  | [] => []
  | Pending urlData k :: rest => (urlData, k) :: pending rest
  | Resolved _ :: rest => pending rest
  end.

(** The order in which the suspended callbacks of a batch resume is not
    fixed by the program.  A schedule gives, for each callback, the place
    at which it is inserted among those started after it; every
    permutation is the image of some schedule, and the empty schedule
    resumes them in the order they were started. *)
Fixpoint insert_at {A} (n : nat) (x : A) (l : list A) : list A :=
  match n, l with
  | S n', y :: l' => y :: insert_at n' x l'
  | _, _ => x :: l
  end.

Fixpoint completion_order {A} (picks : list nat) (waiting : list A) : list A :=
  match waiting with
  | [] => []
  | x :: rest => insert_at (hd 0%nat picks) x (completion_order (tl picks) rest)
  end.

(** The suspended callbacks resume one at a time; each runs to its end
    without interruption. *)
Fixpoint resume_all (order : list (UrlData.t * (JS.completion HtmlData -> M unit)))
  : M unit :=
  match order with
  | [] => ret tt
  | (urlData, k) :: rest =>
      (k (fetch_html net (UrlData.url urlData)) ;;
       modify (Run.emit (Settled (UrlData.url urlData))) ;;
       resume_all rest)%js
  end.

(** [await Promise.all(...)]: rejects with the first rejection, otherwise
    resumes once every callback has returned. *)
Definition await_Promise_all
  (selector : string) (batch : list UrlData.t) (picks : list nat) : M unit :=
  fun s =>
    let (s1, ps) := map_start selector batch s in
    match first_rejection ps with
    | Some e => (s1, Throw e)
    | None => resume_all (completion_order picks (pending ps)) s1
    end.

(** *** The progress update after each batch *)
Definition progress (processed : Z) (totalUrls : nat) : option Z :=
  JS.Math_round
    (JS.mul (JS.div (JS.of_Z processed) (JS.of_Z (Z.of_nat totalUrls)))
            (JS.of_Z 100)).

Definition update_progress (dom : Dom) (totalUrls : nat) (s : Run.t) : Run.t :=
  if container dom then
    let progress := progress (Run.processed s) totalUrls in
    if search_btn dom then Run.emit (ButtonText progress) s else s
  else s.

(** *** for (let i = 0; i < data.urls.length; i += batchSize) *)
Definition batchSize : nat := 5.

(** [sched i] is the schedule of the batch that starts at index [i].  The
    result is [None] only if [fuel] iterations do not reach the end of the
    loop. *)
Fixpoint for_loop (dom : Dom) (selector : string) (data_urls : list UrlData.t)
  (sched : nat -> list nat) (fuel : nat) (i : nat) (s : Run.t)
  : option (Run.t * JS.completion unit) :=
  match fuel with
  | O => None
  | S fuel' =>
      if (i <? List.length data_urls)%nat then
        let batch := JS.slice data_urls i (i + batchSize) in
        let (s1, r) := await_Promise_all selector batch (sched i) s in
        match r with
        | Throw e => Some (s1, Throw e)
        | Normal _ =>
            (* Update progress *)
            let s2 := update_progress dom (List.length data_urls) s1 in
            for_loop dom selector data_urls sched fuel' (i + batchSize)%nat s2
        end
      else Some (s, Normal tt)
  end.

(** [results.sort((a, b) => b.count - a.count)] *)
Definition sort_results (results : list Result.t) : list Result.t :=
  JS.sort (fun a b => Result.count b - Result.count a) results.

End Plugin.

(* ===================================================================== *)
(** ** performSearch, render and the event handlers *)
(* ===================================================================== *)

(** Everything observable once a [performSearch] call has finished. *)
Record Outcome : Type := {
  state : SearchState.t;            (* this.searchState at the end *)
  running : option SearchState.t;   (* this.searchState as rendered when the sweep starts *)
  locals : Run.t;                   (* results, processed *)
  notifications : list Notification;
  trace : list Event;
  returned : JS.completion unit     (* how the returned promise settles *)
}.

Definition leave (st : SearchState.t) (ns : list Notification) (tr : list Event)
  (r : JS.completion unit) : Outcome :=
  {| state := st; running := None; locals := Run.init;
     notifications := ns; trace := tr; returned := r |}.

Section PerformSearch.

Context {browser : Browser}.
Variable net : Network.

(** The calls of [render] at the start and at the end of the sweep write
    into [this.container] and are not part of the outcome; [render] gives
    what they show.  They need the container: the outcome is that of the
    code when [this.container] is set, as it is whenever the lifecycle has
    created [#selector-input]. *)
Definition performSearch (dom : Dom) (sched : nat -> list nat)
  (searchState : SearchState.t) : option Outcome :=
  match selector_input dom with
  | None => Some (leave searchState [] [] (Normal tt))
  | Some value =>
      let selector := JS.trim value in
      if (selector =? "")%string then
        Some (leave searchState [("Please enter a CSS selector", KError)] []
                    (Normal tt))
      else
        (* Get current crawl data *)
        match crawl_status net with
        | Throw e => Some (leave searchState [] [GetCrawlStatus] (Throw e))
        | Normal data =>
            match urls data with
            | None | Some [] =>
                Some (leave searchState [("No crawled pages available", KError)]
                            [GetCrawlStatus] (Normal tt))
            | Some data_urls =>
                let searchState1 :=
                  {| SearchState.selector := selector;
                     SearchState.isSearching := true;
                     SearchState.error := Null;
                     SearchState.results := [] |} in
                (* Search through all URLs *)
                match for_loop net dom selector data_urls sched
                               (S (List.length data_urls)) 0 Run.init with
                | None => None
                | Some (s, Normal _) =>
                    (* Sort by count (descending) *)
                    let results := sort_results (Run.results s) in
                    Some
                      {| state :=
                           {| SearchState.selector := selector;
                              SearchState.isSearching := false;
                              SearchState.error := Null;
                              SearchState.results := results |};
                         running := Some searchState1;
                         locals := s;
                         notifications :=
                           [ match results with
                             | [] =>
                                 ("Selector " ++ JS.dquote ++ selector ++ JS.dquote
                                    ++ " not found on any pages", KInfo)
                             | _ =>
                                 ("Found " ++ JS.dquote ++ selector ++ JS.dquote
                                    ++ " on "
                                    ++ JS.string_of_nat (List.length results)
                                    ++ " page(s)", KSuccess)
                             end ]%string;
                         trace := GetCrawlStatus :: Run.trace s;
                         returned := Normal tt |}
                | Some (s, Throw e) =>
                    Some
                      {| state :=
                           {| SearchState.selector := selector;
                              SearchState.isSearching := false;
                              SearchState.error :=
                                JS.or (JS.message e)
                                      (Str "An error occurred during search");
                              SearchState.results := [] |};
                         running := Some searchState1;
                         locals := s;
                         notifications :=
                           [ ("Search failed: " ++ JS.to_string (JS.message e),
                              KError) ]%string;
                         trace := GetCrawlStatus :: Run.trace s;
                         returned := Normal tt |}
                end
            end
        end
  end.

End PerformSearch.

(** *** renderResults: the total shown above the table *)
Definition totalMatches (results : list Result.t) : Z :=
  fold_left (fun sum r => sum + Result.count r) results 0.

(** *** render: the controls and the parts that depend on the state *)
Record View : Type := {
  input_value : string;
  input_disabled : bool;
  button_disabled : bool;
  button_label : string;
  error_box : option string;
  results_table : option (list Result.t * Z)   (* rows, totalMatches *)
}.

(** [None] is the empty state shown when there are no crawled pages. *)
Definition render (searchState : SearchState.t) (data_urls : option (list UrlData.t))
  : option View :=
  match data_urls with
  | None | Some [] => None
  | Some _ =>
      let searching := SearchState.isSearching searchState in
      Some
        {| input_value := SearchState.selector searchState;
           input_disabled := searching;
           button_disabled := searching;
           button_label := if searching then "Searching..." else "Search";
           error_box :=
             if JS.truthy (SearchState.error searchState)
             then Some (JS.to_string (SearchState.error searchState))
             else None;
           results_table :=
             match SearchState.results searchState with
             | [] => None
             | rs => Some (rs, totalMatches rs)
             end |}
  end.

(** What a user event does. *)
Inductive Action : Type := Ignored | CallPerformSearch.

(** The keypress listener that [render] attaches to the input. *)
Definition on_keypress (key : string) (searchState : SearchState.t) : Action :=
  if (key =? "Enter")%string && negb (SearchState.isSearching searchState)
  then CallPerformSearch else Ignored.

(** The button's [onclick]; a disabled button dispatches no click. *)
Definition on_click (view : View) : Action :=
  if button_disabled view then Ignored else CallPerformSearch.

(* ===================================================================== *)
(** ** The lifecycle hooks and the result table *)
(* ===================================================================== *)

(** The plugin object: the session, whether [this.container] is set, and
    the [isActive] flag that the host framework maintains. *)
Module Plugin.
Record t : Type := {
  searchState : SearchState.t;
  container : bool;
  isActive : bool
}.
End Plugin.

(** [data.urls && data.urls.length > 0] *)
Definition has_pages (data_urls : option (list UrlData.t)) : bool :=
  match data_urls with
  | None | Some [] => false
  | Some _ => true
  end.

(** *** onTabActivate(container, data)

    The result is the plugin afterwards, the requests sent, and what
    [render] puts into the container. *)
Definition onTabActivate (net : Network) (plugin : Plugin.t)
  (data_urls : option (list UrlData.t))
  : Plugin.t * list Event * option View :=
  let plugin1 :=
    {| Plugin.searchState := Plugin.searchState plugin;
       Plugin.container := true;
       Plugin.isActive := Plugin.isActive plugin |} in
  (* If no URLs in data, fetch from API *)
  if negb (has_pages data_urls) then
    let data1 :=
      match crawl_status net with
      | Normal apiData =>
          if has_pages (urls apiData) then urls apiData else data_urls
      | Throw error =>
          (* console.error('Failed to fetch crawl data:', error) *)
          data_urls
      end in
    (plugin1, [GetCrawlStatus], render (Plugin.searchState plugin1) data1)
  else (plugin1, [], render (Plugin.searchState plugin1) data_urls).

(** *** onDataUpdate(data)

    [None] when nothing is rendered, otherwise what [render] puts into the
    container. *)
Definition onDataUpdate (plugin : Plugin.t) (data_urls : option (list UrlData.t))
  : option (option View) :=
  if Plugin.isActive plugin && Plugin.container plugin then
    (* Update the URL list if search is active *)
    if JS.truthy (Str (SearchState.selector (Plugin.searchState plugin)))
       && (0 <? List.length (SearchState.results (Plugin.searchState plugin)))%nat
    then Some (render (Plugin.searchState plugin) data_urls)
    else None
  else None.

(** *** renderResults: one table row per result

    The texts are those handed to the host's [escapeHtml]; the link text is
    the URL as handed to the host's [formatUrl]. *)
Record Row : Type := {
  row_url : string;
  row_title : string;
  row_count : Z;
  row_status : Z;
  row_status_color : string
}.

Definition result_row (result : Result.t) : Row :=
  {| row_url := Result.url result;
     row_title := JS.to_string (JS.or (Result.title result) (Str "N/A"));
     row_count := Result.count result;
     row_status := Result.status_code result;
     row_status_color :=
       if Result.status_code result =? 200 then "#10b981" else "#ef4444" |}.

(** The header shows the number of results and the total; the body has
    the rows. *)
Definition renderResults (searchState : SearchState.t) : nat * Z * list Row :=
  (List.length (SearchState.results searchState),
   totalMatches (SearchState.results searchState),
   map result_row (SearchState.results searchState)).

(* ===================================================================== *)
(** ** A miniature document engine and sample data

    Used to run the plugin on concrete inputs.  Markup is scanned for
    opening tags; the only selectors the engine accepts are type selectors
    (a non-empty run of letters and digits), anything else is a syntax
    error, as it is for [div[] in a browser. *)
(* ===================================================================== *)

Module Mini.

Definition is_alnum (c : ascii) : bool :=
  let n := N_of_ascii c in
  ((48 <=? n) && (n <=? 57) || (65 <=? n) && (n <=? 90)
   || (97 <=? n) && (n <=? 122))%N.

Fixpoint name_prefix (s : string) : string :=
  match s with
  | EmptyString => EmptyString
  | String c rest => if is_alnum c then String c (name_prefix rest) else EmptyString
  end.

Fixpoint scan_tags (s : string) : list string :=
  match s with
  | EmptyString => []
  | String c rest =>
      if (c =? "<")%char then
        match name_prefix rest with
        | EmptyString => scan_tags rest
        | name => name :: scan_tags rest
        end
      else scan_tags rest
  end.

Fixpoint all_alnum (s : string) : bool :=
  match s with
  | EmptyString => true
  | String c rest => is_alnum c && all_alnum rest
  end.

Definition is_type_selector (s : string) : bool :=
  negb (s =? "")%string && all_alnum s.

#[export] Instance browser : Browser := {|
  Document := list string;
  Element := string;
  parseFromString := fun html => Normal (scan_tags html);
  querySelectorAll := fun doc selector =>
    if is_type_selector selector
    then Normal (filter (String.eqb selector) doc)
    else Throw {| JS.message := Str "SyntaxError" |}
|}.

(** An HTML page of the inventory, and one the crawler saw failing. *)
Definition page (url : string) : UrlData.t :=
  {| UrlData.url := url; UrlData.status_code := 200;
     UrlData.content_type := Str "text/html; charset=utf-8";
     UrlData.title := Str ("Title of " ++ url)%string |}.

Definition missing (url : string) : UrlData.t :=
  {| UrlData.url := url; UrlData.status_code := 404;
     UrlData.content_type := Str "text/html"; UrlData.title := Null |}.

(** A server that knows the markup of some URLs and fails on the rest. *)
Fixpoint lookup (site : list (string * string)) (url : string)
  : JS.completion HtmlData :=
  match site with
  | [] => Throw {| JS.message := Str "Failed to fetch" |}
  | (u, markup) :: rest =>
      if (u =? url)%string
      then Normal {| success := true; html := Str markup |}
      else lookup rest url
  end.

Definition server (inventory : list UrlData.t) (site : list (string * string))
  : Network :=
  {| crawl_status := Normal {| urls := Some inventory |};
     fetch_html := lookup site |}.

Definition dom (text : string) : Dom :=
  {| selector_input := Some text; container := true; search_btn := true |}.

(** Resume the callbacks of every batch in the order they were started. *)
Definition fifo : nat -> list nat := fun _ => [].

(** Resume the callbacks of every batch in the reverse order. *)
Definition lifo : nat -> list nat := fun _ => [4; 3; 2; 1; 0]%nat.

(** Sample inventories.  Every page of [site] holds the given number of
    [h1] elements. *)
Fixpoint headings (n : nat) : string :=
  match n with
  | O => "<p>text</p>"
  | S n' => ("<h1>title</h1>" ++ headings n')%string
  end.

Definition site (pages : list (string * nat)) : list (string * string) :=
  map (fun p => (fst p, headings (snd p))) pages.

Definition two_pages : list UrlData.t := [page "a"; page "b"].
Definition two_site : list (string * string) := site [("a", 1); ("b", 1)]%nat.

Definition three_pages : list UrlData.t := [page "a"; page "b"; page "c"].
Definition three_site : list (string * string) :=
  site [("a", 2); ("b", 0); ("c", 5)]%nat.

Definition six_pages : list UrlData.t :=
  map page ["p1"; "p2"; "p3"; "p4"; "p5"; "p6"].
Definition six_site : list (string * string) :=
  site [("p1", 1); ("p2", 1); ("p3", 1); ("p4", 1); ("p5", 1); ("p6", 1)]%nat.

(** Six pages of which the second was not found by the crawler. *)
Definition mixed_pages : list UrlData.t :=
  [page "p1"; missing "p2"; page "p3"; page "p4"; page "p5"; page "p6"].

Definition one_and_missing : list UrlData.t := [page "a"; missing "c"].

(** Twelve HTML pages; the server fails on the seventh and serves three
    matches on each of the others. *)
Definition twelve_pages : list UrlData.t :=
  map page ["p1"; "p2"; "p3"; "p4"; "p5"; "p6";
            "p7"; "p8"; "p9"; "p10"; "p11"; "p12"].
Definition twelve_site : list (string * string) :=
  site [("p1", 3); ("p2", 3); ("p3", 3); ("p4", 3); ("p5", 3); ("p6", 3);
        ("p8", 3); ("p9", 3); ("p10", 3); ("p11", 3); ("p12", 3)]%nat.

(** A page without a title. *)
Definition untitled : UrlData.t :=
  {| UrlData.url := "u"; UrlData.status_code := 200;
     UrlData.content_type := Str "text/html"; UrlData.title := Null |}.

(** A session in which a search is under way. *)
Definition busy : SearchState.t :=
  {| SearchState.selector := "p";
     SearchState.isSearching := true;
     SearchState.results := [];
     SearchState.error := Null |}.

End Mini.

(* ===================================================================== *)
(** ** Notions used to state the properties *)
(* ===================================================================== *)

(** A page passes both guards of the callback. *)
Definition eligible (urlData : UrlData.t) : bool :=
  (UrlData.status_code urlData =? 200)
  && JS.value_includes (JS.or (UrlData.content_type urlData) (Str "")) "text/html".

(** The increments of [processed] caused by a list of pages: one for each
    page that passes the guards, two for each page that does not. *)
Definition count_processed (l : list UrlData.t) : Z :=
  Z.of_nat (List.length (filter eligible l))
  + 2 * Z.of_nat (List.length (filter (fun u => negb (eligible u)) l)).

Definition push_all (rs : list Result.t) (s : Run.t) : Run.t :=
  {| Run.results := Run.results s ++ rs;
     Run.processed := Run.processed s;
     Run.trace := Run.trace s |}.

(** The first event of a page's callback: its fetch is issued, or, for a
    page that fails a guard, the callback has already returned. *)
Definition start_event (urlData : UrlData.t) : Event :=
  if eligible urlData then PostFetchHtml (UrlData.url urlData)
  else Settled (UrlData.url urlData).

Definition settle_event (urlData : UrlData.t) : Event :=
  Settled (UrlData.url urlData).

Definition button_texts (tr : list Event) : list (option Z) :=
  flat_map (fun e => match e with ButtonText p => [p] | _ => [] end) tr.

(** The number of fetches issued between consecutive progress updates. *)
Fixpoint fetch_batch_sizes (open : nat) (tr : list Event) : list nat :=
  match tr with
  | [] => []
  | PostFetchHtml _ :: rest => fetch_batch_sizes (S open) rest
  | ButtonText _ :: rest => open :: fetch_batch_sizes 0 rest
  | _ :: rest => fetch_batch_sizes open rest
  end.

(** Consecutive groups of [n] elements, the last one possibly shorter. *)
Fixpoint chunks_aux {A} (fuel n : nat) (l : list A) : list (list A) :=
  match fuel, l with
  | S fuel', _ :: _ => firstn n l :: chunks_aux fuel' n (skipn n l)
  | _, _ => []
  end.

Definition chunks {A} (n : nat) (l : list A) : list (list A) :=
  chunks_aux (List.length l) n l.

(** The number of iterations of the batch loop over [n] pages. *)
Definition batch_count (n : nat) : nat := ((n + 4) / 5)%nat.

Definition sum_counts (results : list Result.t) : Z :=
  fold_right (fun r acc => Result.count r + acc) 0 results.

Definition with_count (c : Z) (results : list Result.t) : list Result.t :=
  filter (fun r => Result.count r =? c) results.

Definition count_desc (a b : Result.t) : Prop := Result.count a >= Result.count b.

(** Every character of the string is white space. *)
Fixpoint all_white_space (s : string) : bool :=
  match s with
  | EmptyString => true
  | String c rest => JS.is_white_space c && all_white_space rest
  end.

Section Sweep.

Context {browser : Browser}.
Variable net : Network.
Variable dom : Dom.
Variable selector : string.
Variable data_urls : list UrlData.t.
Variable sched : nat -> list nat.

(** What a page's callback pushes, given the answer to its fetch. *)
Definition matches_of (urlData : UrlData.t) (response : JS.completion HtmlData)
  : list Result.t :=
  match response with
  | Throw _ => []
  | Normal htmlData =>
      if success htmlData && JS.truthy (html htmlData) then
        match countSelectorMatches (JS.to_string (html htmlData)) selector with
        | Normal count =>
            if count >? 0 then
              [ {| Result.url := UrlData.url urlData;
                   Result.title :=
                     JS.or (UrlData.title urlData) (Str (UrlData.url urlData));
                   Result.count := count;
                   Result.status_code := UrlData.status_code urlData |} ]
            else []
        | Throw _ => []
        end
      else []
  end.

Definition page_matches (urlData : UrlData.t) : list Result.t :=
  if eligible urlData
  then matches_of urlData (fetch_html net (UrlData.url urlData))
  else [].

(** The continuation of a page's callback after its fetch. *)
Definition continuation (urlData : UrlData.t) : JS.completion HtmlData -> M unit :=
  match page_task selector urlData with
  | Await _ k => k
  | Sync m => fun _ => m
  end.

(** The [k]-th batch and the order in which its fetches complete. *)
Definition batch (k : nat) : list UrlData.t :=
  JS.slice data_urls (batchSize * k) (batchSize * k + batchSize).

Definition settle_order (k : nat) : list UrlData.t :=
  completion_order (sched (batchSize * k)%nat) (filter eligible (batch k)).

(** One iteration of the loop body, started at index [i]. *)
Definition loop_body (i : nat) (s : Run.t) : Run.t :=
  update_progress dom (List.length data_urls)
    (fst (await_Promise_all net selector
            (JS.slice data_urls i (i + batchSize)) (sched i) s)).

(** The local variables after the first [n] iterations. *)
Fixpoint after_batches (n : nat) : Run.t :=
  match n with
  | O => Run.init
  | S n' => loop_body (batchSize * n') (after_batches n')
  end.

(** The events of the [k]-th iteration. *)
Definition batch_events (k : nat) : list Event :=
  map start_event (batch k) ++ map settle_event (settle_order k)
  ++ (if container dom && search_btn dom
      then [ButtonText (progress (Run.processed (after_batches (S k)))
                                 (List.length data_urls))]
      else []).

End Sweep.

(** The claim that ties keep inventory order, as a property of a result
    list: for every count, the results with that count are those of the
    inventory pages, in inventory order. *)
Definition ties_in_inventory_order {browser : Browser} (net : Network)
  (selector : string) (data_urls : list UrlData.t) (results : list Result.t) : Prop :=
  forall c, with_count c results
            = with_count c (flat_map (page_matches net selector) data_urls).

(** The claim that progress is published after each page out of the
    eligible ones: the percentages one would then see for [n] pages. *)
Definition per_page_progress (n : nat) : list (option Z) :=
  map (fun k => progress (Z.of_nat k) n) (seq 1 n).

(** The conditions under which a [performSearch] call gets past its early
    returns: the input holds a selector that is not blank and the crawl
    status lists at least one page. *)
Definition ready (net : Network) (dom : Dom) (selector : string)
  (data_urls : list UrlData.t) : Prop :=
  exists value data,
    selector_input dom = Some value
    /\ JS.trim value = selector
    /\ selector <> ""
    /\ crawl_status net = Normal data
    /\ urls data = Some data_urls
    /\ data_urls <> [].

(** The local variables when the loop is left. *)
Definition final_locals {browser : Browser} (net : Network) (dom : Dom)
  (selector : string) (data_urls : list UrlData.t) (sched : nat -> list nat) : Run.t :=
  after_batches net dom selector data_urls sched (batch_count (List.length data_urls)).

(** The page's markup could not be retrieved: the request or the decoding of
    its answer threw, or the answer says [success: false] or carries no
    markup. *)
Definition retrieval_failed (response : JS.completion HtmlData) : bool :=
  match response with
  | Throw _ => true
  | Normal htmlData => negb (success htmlData && JS.truthy (html htmlData))
  end.

(** A call that was refused leaves the session as it was and touches
    neither the inventory nor the network. *)
Definition refused (searchState : SearchState.t) (out : Outcome) : Prop :=
  state out = searchState /\ trace out = [] /\ running out = None.

(** The session as a run that found [results] leaves it. *)
Definition completed (selector : string) (results : list Result.t) : SearchState.t :=
  {| SearchState.selector := selector;
     SearchState.isSearching := false;
     SearchState.results := results;
     SearchState.error := Null |}.

(** The URLs for which a fetch was issued, and the URLs whose callback
    has returned, in the order of the events. *)
Definition fetched (tr : list Event) : list string :=
  flat_map (fun e => match e with PostFetchHtml u => [u] | _ => [] end) tr.

Definition settled (tr : list Event) : list string :=
  flat_map (fun e => match e with Settled u => [u] | _ => [] end) tr.

Definition crawl_requests (tr : list Event) : nat :=
  List.length (filter (fun e => match e with GetCrawlStatus => true | _ => false end) tr).

(** The first and the last character of a string, if any. *)
Definition first_char (s : string) : option ascii :=
  match s with
  | EmptyString => None
  | String c _ => Some c
  end.

Fixpoint last_char (s : string) : option ascii :=
  match s with
  | EmptyString => None
  | String c EmptyString => Some c
  | String _ rest => last_char rest
  end.

Definition not_white_space (c : option ascii) : Prop :=
  match c with
  | Some c => JS.is_white_space c = false
  | None => True
  end.

(* ===================================================================== *)
(** ** Facts about the JavaScript primitives *)
(* ===================================================================== *)

Lemma or_is_string (v : JS.value) (d : string) :
  exists s, JS.or v (Str d) = Str s.
Proof.
  unfold JS.or. destruct v as [| |s]; simpl; eauto.
  destruct (s =? "")%string; simpl; eauto.
Qed.

Lemma or_truthy (a b : JS.value) : JS.truthy a = true -> JS.or a b = a.
Proof. unfold JS.or. intros ->. reflexivity. Qed.

Lemma or_falsy (a b : JS.value) : JS.truthy a = false -> JS.or a b = b.
Proof. unfold JS.or. intros ->. reflexivity. Qed.

Lemma trimStart_all_white_space (s : string) :
  all_white_space s = true -> JS.trimStart s = "".
Proof.
  induction s as [|c s IH]; simpl; [reflexivity|].
  intros H. apply andb_true_iff in H as [Hc Hs]. rewrite Hc. auto.
Qed.

Lemma trim_all_white_space (s : string) :
  all_white_space s = true -> JS.trim s = "".
Proof. intros H. unfold JS.trim. rewrite trimStart_all_white_space; auto. Qed.

Lemma trimEnd_empty (s : string) :
  JS.trimEnd s = "" -> all_white_space s = true.
Proof.
  induction s as [|c s IH]; simpl; [reflexivity|].
  destruct (JS.is_white_space c) eqn:Hc; simpl; [|discriminate].
  destruct (JS.trimEnd s =? "")%string eqn:He; [|discriminate].
  intros _. apply IH. now apply String.eqb_eq.
Qed.

Lemma trimStart_white_space (s : string) :
  all_white_space (JS.trimStart s) = true -> all_white_space s = true.
Proof.
  induction s as [|c s IH]; simpl; [reflexivity|].
  destruct (JS.is_white_space c) eqn:Hc; simpl; [exact IH|].
  rewrite Hc. discriminate.
Qed.

(** [trim] returns the empty string exactly on the strings made of white
    space only. *)
Lemma trim_empty_iff (s : string) :
  JS.trim s = "" <-> all_white_space s = true.
Proof.
  split; [|apply trim_all_white_space].
  intros H. apply trimStart_white_space, trimEnd_empty, H.
Qed.

(** *** The sort *)

Lemma sort_insert_perm {A} (cmp : A -> A -> Z) (x : A) (l : list A) :
  Permutation (x :: l) (JS.sort_insert cmp x l).
Proof.
  induction l as [|y l IH]; simpl; [reflexivity|].
  destruct (cmp x y <=? 0); [reflexivity|].
  rewrite perm_swap. now constructor.
Qed.

Lemma sort_perm {A} (cmp : A -> A -> Z) (l : list A) :
  Permutation l (JS.sort cmp l).
Proof.
  induction l as [|x l IH]; simpl; [constructor|].
  rewrite <- sort_insert_perm. now constructor.
Qed.

Lemma sort_results_perm (l : list Result.t) : Permutation l (sort_results l).
Proof. apply sort_perm. Qed.

Lemma sort_insert_count_desc (x : Result.t) (l : list Result.t) :
  StronglySorted count_desc l ->
  StronglySorted count_desc
    (JS.sort_insert (fun a b => Result.count b - Result.count a) x l).
Proof.
  induction 1 as [|y l Hl IH Hy]; simpl.
  - repeat constructor.
  - destruct (Z.leb_spec (Result.count y - Result.count x) 0) as [Hle|Hgt].
    + constructor; [now constructor|].
      constructor; [unfold count_desc; lia|].
      eapply Forall_impl; [|exact Hy]. unfold count_desc. intros; lia.
    + constructor; [exact IH|].
      eapply Permutation_Forall; [apply sort_insert_perm|].
      constructor; [unfold count_desc; lia|exact Hy].
Qed.

Lemma sort_results_sorted (l : list Result.t) :
  StronglySorted count_desc (sort_results l).
Proof.
  unfold sort_results, JS.sort.
  induction l as [|x l IH]; simpl; [constructor|].
  now apply sort_insert_count_desc.
Qed.

Lemma sort_insert_stable (c : Z) (x : Result.t) (l : list Result.t) :
  with_count c (JS.sort_insert (fun a b => Result.count b - Result.count a) x l)
  = with_count c (x :: l).
Proof.
  unfold with_count.
  induction l as [|y l IH]; simpl; [reflexivity|].
  destruct (Z.leb_spec (Result.count y - Result.count x) 0) as [Hle|Hgt];
    [reflexivity|].
  simpl in *. rewrite IH.
  destruct (Z.eqb_spec (Result.count x) c), (Z.eqb_spec (Result.count y) c);
    try reflexivity; lia.
Qed.

(** Results with the same count come out of the sort in the order they
    went in. *)
Lemma sort_results_stable (c : Z) (l : list Result.t) :
  with_count c (sort_results l) = with_count c l.
Proof.
  unfold sort_results, JS.sort.
  induction l as [|x l IH]; simpl; [reflexivity|].
  rewrite sort_insert_stable. unfold with_count in *. simpl. now rewrite IH.
Qed.

(** *** Schedules *)

Lemma insert_at_perm {A} (n : nat) (x : A) (l : list A) :
  Permutation (x :: l) (insert_at n x l).
Proof.
  revert n. induction l as [|y l IH]; intros [|n]; simpl; try reflexivity.
  rewrite perm_swap. constructor. apply IH.
Qed.

Lemma completion_order_perm {A} (picks : list nat) (l : list A) :
  Permutation l (completion_order picks l).
Proof.
  revert picks. induction l as [|x l IH]; intros picks; simpl; [constructor|].
  rewrite <- insert_at_perm. constructor. apply IH.
Qed.

Lemma completion_order_fifo {A} (l : list A) : completion_order [] l = l.
Proof. induction l as [|x l IH]; simpl; [reflexivity|]. now rewrite IH. Qed.

Lemma insert_at_map {A B} (f : A -> B) (n : nat) (x : A) (l : list A) :
  insert_at n (f x) (map f l) = map f (insert_at n x l).
Proof.
  revert n. induction l as [|y l IH]; intros [|n]; simpl; try reflexivity.
  now rewrite IH.
Qed.

Lemma completion_order_map {A B} (f : A -> B) (picks : list nat) (l : list A) :
  completion_order picks (map f l) = map f (completion_order picks l).
Proof.
  revert picks. induction l as [|x l IH]; intros picks; simpl; [reflexivity|].
  now rewrite IH, insert_at_map.
Qed.

(** Every order is produced by some schedule. *)
Lemma insert_at_reaches {A} (x : A) (l1 l2 : list A) :
  insert_at (List.length l1) x (l1 ++ l2) = l1 ++ x :: l2.
Proof. induction l1 as [|y l1 IH]; simpl; [now destruct l2|]. now rewrite IH. Qed.

Lemma every_order_scheduled {A} (l l' : list A) :
  Permutation l l' -> exists picks, completion_order picks l = l'.
Proof.
  revert l'. induction l as [|x l IH]; intros l' HP.
  - apply Permutation_nil in HP. subst. now exists [].
  - destruct (in_split x l') as (l1 & l2 & ->).
    { eapply Permutation_in; [exact HP|now left]. }
    apply Permutation_cons_app_inv in HP.
    destruct (IH _ HP) as [picks Hp].
    exists (List.length l1 :: picks). simpl. rewrite Hp.
    apply insert_at_reaches.
Qed.

(** *** Slices *)

Lemma firstn_plus {A} (a b : nat) (l : list A) :
  firstn (a + b) l = firstn a l ++ firstn b (skipn a l).
Proof.
  revert l. induction a as [|a IH]; intros l; simpl; [reflexivity|].
  destruct l as [|x l]; simpl; [now destruct b|]. now rewrite IH.
Qed.

Lemma slice_batch {A} (l : list A) (i : nat) :
  JS.slice l i (i + batchSize) = firstn batchSize (skipn i l).
Proof. unfold JS.slice. f_equal. lia. Qed.

Lemma firstn_next_batch {A} (l : list A) (k : nat) :
  firstn (batchSize * S k) l
  = firstn (batchSize * k) l
    ++ JS.slice l (batchSize * k) (batchSize * k + batchSize).
Proof.
  rewrite slice_batch, <- firstn_plus. f_equal. unfold batchSize. lia.
Qed.

Lemma batch_count_covers (n : nat) : (n <= batchSize * batch_count n)%nat.
Proof.
  unfold batch_count, batchSize.
  pose proof (Nat.div_mod_eq (n + 4) 5).
  pose proof (Nat.mod_upper_bound (n + 4) 5). lia.
Qed.

Lemma batch_count_tight (n k : nat) :
  (k < batch_count n)%nat <-> (batchSize * k < n)%nat.
Proof.
  unfold batch_count, batchSize.
  pose proof (Nat.div_mod_eq (n + 4) 5).
  pose proof (Nat.mod_upper_bound (n + 4) 5). lia.
Qed.

(* ===================================================================== *)
(** ** The matcher and the page callback *)
(* ===================================================================== *)

Section Callback.

Context {browser : Browser}.
Variable net : Network.
Variable selector : string.

(** The outer handler of [countSelectorMatches] catches whatever the
    inner one throws. *)
Lemma countSelectorMatches_value (markup sel : string) :
  countSelectorMatches markup sel =
  Normal match parseFromString markup with
         | Normal doc =>
             match querySelectorAll doc sel with
             | Normal elements => Z.of_nat (List.length elements)
             | Throw _ => 0
             end
         | Throw _ => 0
         end.
Proof.
  unfold countSelectorMatches.
  destruct (parseFromString markup) as [doc|e]; simpl; [|reflexivity].
  destruct (querySelectorAll doc sel); reflexivity.
Qed.

Lemma countSelectorMatches_returns (markup sel : string) :
  exists n, countSelectorMatches markup sel = Normal n /\ 0 <= n.
Proof.
  rewrite countSelectorMatches_value. eexists. split; [reflexivity|].
  destruct (parseFromString markup) as [doc|]; [|lia].
  destruct (querySelectorAll doc sel); lia.
Qed.

(** A page that fails a guard: the callback returns at once, after the
    increment before [return] and the one in [finally]. *)
Lemma page_task_ineligible (urlData : UrlData.t) :
  eligible urlData = false ->
  exists m, page_task selector urlData = Sync m
            /\ forall s, m s = (Run.incr (Run.incr s), Normal tt).
Proof.
  unfold eligible, page_task. intros H.
  destruct (UrlData.status_code urlData =? 200); simpl in *.
  - rewrite H. simpl. eexists. split; reflexivity.
  - eexists. split; reflexivity.
Qed.

(** A page that passes both guards: the callback issues its fetch and
    suspends; when resumed it pushes at most one result and increments
    the counter once, whatever the answer. *)
Lemma page_task_eligible (urlData : UrlData.t) :
  eligible urlData = true ->
  page_task selector urlData
  = Await (UrlData.url urlData) (continuation selector urlData).
Proof.
  unfold continuation, eligible, page_task. intros H.
  apply andb_true_iff in H as [H1 H2]. rewrite H1, H2. reflexivity.
Qed.

Lemma continuation_run (urlData : UrlData.t) (response : JS.completion HtmlData)
  (s : Run.t) :
  eligible urlData = true ->
  continuation selector urlData response s
  = (Run.incr (push_all (matches_of selector urlData response) s), Normal tt).
Proof.
  unfold continuation, eligible, page_task. intros H.
  apply andb_true_iff in H as [H1 H2]. rewrite H1, H2. simpl.
  unfold try_finally, try_catch, bind, lift, modify, ret, matches_of.
  assert (Hid : push_all [] s = s).
  { unfold push_all. rewrite app_nil_r. now destruct s. }
  destruct response as [htmlData|e]; simpl; [|now rewrite Hid].
  destruct (success htmlData && JS.truthy (html htmlData)); simpl;
    [|now rewrite Hid].
  destruct (countSelectorMatches (JS.to_string (html htmlData)) selector)
    as [count|e]; simpl; [|now rewrite Hid].
  destruct (count >? 0); simpl; [reflexivity|now rewrite Hid].
Qed.

(** *** One batch *)

Lemma count_processed_app (l1 l2 : list UrlData.t) :
  count_processed (l1 ++ l2) = count_processed l1 + count_processed l2.
Proof.
  unfold count_processed. rewrite !filter_app, !length_app. lia.
Qed.

Lemma count_processed_nonneg (l : list UrlData.t) : 0 <= count_processed l.
Proof. unfold count_processed. lia. Qed.

Lemma count_processed_at_least (l : list UrlData.t) :
  Z.of_nat (List.length l) <= count_processed l.
Proof.
  unfold count_processed.
  induction l as [|u l IH]; [cbn; lia|]. cbn [filter List.length].
  destruct (eligible u); cbn [negb List.length]; lia.
Qed.

Lemma count_processed_eligible (l : list UrlData.t) :
  forallb eligible l = true -> count_processed l = Z.of_nat (List.length l).
Proof.
  unfold count_processed.
  induction l as [|u l IH]; [reflexivity|]. cbn [forallb].
  intros H. apply andb_true_iff in H as [Hu Hl].
  cbn [filter]. rewrite Hu. cbn [negb List.length].
  specialize (IH Hl). lia.
Qed.

Lemma map_start_run (b : list UrlData.t) (s : Run.t) :
  exists ps,
    map_start selector b s
    = ({| Run.results := Run.results s;
          Run.processed :=
            Run.processed s
            + 2 * Z.of_nat (List.length (filter (fun u => negb (eligible u)) b));
          Run.trace := Run.trace s ++ map start_event b |}, ps)
    /\ first_rejection ps = None
    /\ pending ps
       = map (fun u => (u, continuation selector u)) (filter eligible b).
Proof.
  revert s. induction b as [|u b IH]; intros s.
  - exists []. cbn [map_start filter map List.length first_rejection pending].
    repeat split. destruct s; cbn [Run.results Run.processed Run.trace].
    rewrite app_nil_r. do 2 f_equal. lia.
  - cbn [map_start filter map]. unfold start_event at 1.
    destruct (eligible u) eqn:Hu; cbn [negb].
    + rewrite (page_task_eligible u Hu).
      destruct (IH (Run.emit (PostFetchHtml (UrlData.url u)) s))
        as (ps & -> & Hr & Hp).
      eexists. split.
      { cbn [Run.results Run.processed Run.trace Run.emit].
        rewrite <- app_assoc. reflexivity. }
      cbn [first_rejection pending map]. split; [exact Hr|now rewrite Hp].
    + destruct (page_task_ineligible u Hu) as (m & -> & Hm). rewrite Hm.
      destruct (IH (Run.emit (Settled (UrlData.url u)) (Run.incr (Run.incr s))))
        as (ps & -> & Hr & Hp).
      eexists. split.
      { cbn [Run.results Run.processed Run.trace Run.emit Run.incr List.length].
        rewrite <- app_assoc. cbn [app]. f_equal. f_equal. lia. }
      cbn [first_rejection pending map]. split; [exact Hr|exact Hp].
Qed.

Lemma resume_all_run (order : list UrlData.t) (s : Run.t) :
  forallb eligible order = true ->
  resume_all net (map (fun u => (u, continuation selector u)) order) s
  = ({| Run.results := Run.results s ++ flat_map (page_matches net selector) order;
        Run.processed := Run.processed s + Z.of_nat (List.length order);
        Run.trace := Run.trace s ++ map settle_event order |}, Normal tt).
Proof.
  revert s. induction order as [|u order IH]; intros s H.
  - cbn [map resume_all flat_map List.length]. unfold ret.
    destruct s; cbn [Run.results Run.processed Run.trace].
    rewrite !app_nil_r. do 2 f_equal. lia.
  - cbn [forallb] in H. apply andb_true_iff in H as [Hu Ho].
    cbn [map resume_all]. unfold bind at 1.
    rewrite (continuation_run u _ s Hu).
    unfold bind at 1, modify at 1.
    rewrite (IH _ Ho).
    cbn [Run.results Run.processed Run.trace Run.emit Run.incr push_all
         flat_map map List.length].
    unfold page_matches at 2. rewrite Hu. unfold settle_event at 2.
    rewrite <- !app_assoc. cbn [app]. do 2 f_equal. lia.
Qed.

(** A batch always settles normally: what it pushes is what its eligible
    pages contribute, in the order their fetches complete. *)
Lemma await_Promise_all_run (b : list UrlData.t) (picks : list nat) (s : Run.t) :
  await_Promise_all net selector b picks s
  = ({| Run.results :=
          Run.results s
          ++ flat_map (page_matches net selector)
                      (completion_order picks (filter eligible b));
        Run.processed := Run.processed s + count_processed b;
        Run.trace :=
          Run.trace s ++ map start_event b
          ++ map settle_event (completion_order picks (filter eligible b)) |},
     Normal tt).
Proof.
  unfold await_Promise_all.
  destruct (map_start_run b s) as (ps & -> & -> & ->).
  rewrite completion_order_map, resume_all_run.
  - cbn [Run.results Run.processed Run.trace]. unfold count_processed.
    rewrite <- (Permutation_length (completion_order_perm picks (filter eligible b))).
    rewrite <- app_assoc. do 2 f_equal. lia.
  - apply forallb_forall. intros u Hu.
    eapply Permutation_in in Hu;
      [|symmetry; apply completion_order_perm].
    now apply filter_In in Hu.
Qed.

End Callback.

(* ===================================================================== *)
(** ** The batch loop *)
(* ===================================================================== *)

Section Loop.

Context {browser : Browser}.
Variable net : Network.
Variable dom : Dom.
Variable selector : string.
Variable data_urls : list UrlData.t.
Variable sched : nat -> list nat.

Local Abbreviation after := (after_batches net dom selector data_urls sched).
Local Abbreviation order := (settle_order data_urls sched).
Local Abbreviation contribution := (page_matches net selector).

Lemma update_progress_results (n : nat) (s : Run.t) :
  Run.results (update_progress dom n s) = Run.results s.
Proof.
  unfold update_progress. destruct (container dom), (search_btn dom); reflexivity.
Qed.

Lemma update_progress_processed (n : nat) (s : Run.t) :
  Run.processed (update_progress dom n s) = Run.processed s.
Proof.
  unfold update_progress. destruct (container dom), (search_btn dom); reflexivity.
Qed.

Lemma update_progress_trace (n : nat) (s : Run.t) :
  Run.trace (update_progress dom n s)
  = Run.trace s
    ++ (if container dom && search_btn dom
        then [ButtonText (progress (Run.processed s) n)] else []).
Proof.
  unfold update_progress.
  destruct (container dom), (search_btn dom); cbn [andb Run.trace Run.emit];
    now rewrite ?app_nil_r.
Qed.

Lemma after_batches_results (n : nat) :
  Run.results (after n)
  = flat_map (fun k => flat_map contribution (order k)) (seq 0 n).
Proof.
  induction n as [|n IH]; [reflexivity|].
  rewrite seq_S, flat_map_app. cbn [after_batches flat_map Nat.add].
  unfold loop_body. rewrite update_progress_results, await_Promise_all_run.
  cbn [fst Run.results]. rewrite IH, app_nil_r. reflexivity.
Qed.

Lemma after_batches_processed (n : nat) :
  Run.processed (after n) = count_processed (firstn (batchSize * n) data_urls).
Proof.
  induction n as [|n IH]; [reflexivity|].
  rewrite firstn_next_batch, count_processed_app.
  cbn [after_batches]. unfold loop_body.
  rewrite update_progress_processed, await_Promise_all_run.
  cbn [fst Run.processed]. now rewrite IH.
Qed.

Lemma after_batches_trace (n : nat) :
  Run.trace (after n)
  = flat_map (batch_events net dom selector data_urls sched) (seq 0 n).
Proof.
  induction n as [|n IH]; [reflexivity|].
  rewrite seq_S, flat_map_app. cbn [flat_map Nat.add].
  rewrite app_nil_r. unfold batch_events at 2.
  cbn [after_batches]. unfold loop_body.
  rewrite update_progress_trace, update_progress_processed,
    await_Promise_all_run.
  cbn [fst Run.trace Run.processed]. rewrite IH, <- !app_assoc. reflexivity.
Qed.

(** The counter never decreases from one iteration to the next. *)
Lemma after_batches_monotone (n : nat) :
  Run.processed (after n) <= Run.processed (after (S n)).
Proof.
  rewrite !after_batches_processed, firstn_next_batch, count_processed_app.
  pose proof (count_processed_nonneg
                (JS.slice data_urls (batchSize * n) (batchSize * n + batchSize))).
  lia.
Qed.

Lemma covered : firstn (batchSize * batch_count (List.length data_urls)) data_urls
                = data_urls.
Proof. apply firstn_all2, batch_count_covers. Qed.

Lemma contribution_filter (l : list UrlData.t) :
  flat_map contribution (filter eligible l) = flat_map contribution l.
Proof.
  induction l as [|u l IH]; [reflexivity|]. cbn [filter flat_map].
  destruct (eligible u) eqn:Hu; cbn [flat_map]; rewrite IH; [reflexivity|].
  unfold page_matches at 2. now rewrite Hu.
Qed.

(** Whatever the schedule, the pushed results are those of the inventory
    pages, up to order. *)
Lemma after_batches_perm (n : nat) :
  Permutation (Run.results (after n))
              (flat_map contribution (firstn (batchSize * n) data_urls)).
Proof.
  rewrite after_batches_results.
  induction n as [|n IH]; [reflexivity|].
  rewrite seq_S, flat_map_app, firstn_next_batch, flat_map_app.
  apply Permutation_app; [exact IH|].
  cbn [flat_map Nat.add]. rewrite app_nil_r.
  unfold settle_order, batch.
  rewrite <- (contribution_filter (JS.slice _ _ _)).
  apply Permutation_flat_map. symmetry. apply completion_order_perm.
Qed.

(** When the fetches of every batch complete in the order they were
    issued, the pushed results are in inventory order. *)
Lemma after_batches_fifo (n : nat) :
  (forall i, sched i = []) ->
  Run.results (after n)
  = flat_map contribution (firstn (batchSize * n) data_urls).
Proof.
  intros Hs. rewrite after_batches_results.
  induction n as [|n IH]; [reflexivity|].
  rewrite seq_S, flat_map_app, firstn_next_batch, flat_map_app, IH.
  f_equal. cbn [flat_map Nat.add]. rewrite app_nil_r.
  unfold settle_order, batch. rewrite Hs, completion_order_fifo.
  apply contribution_filter.
Qed.

(** The loop runs [batch_count] iterations and then leaves normally. *)
Lemma for_loop_run (fuel k : nat) :
  (k <= batch_count (List.length data_urls))%nat ->
  (batch_count (List.length data_urls) - k < fuel)%nat ->
  for_loop net dom selector data_urls sched fuel (batchSize * k) (after k)
  = Some (after (batch_count (List.length data_urls)), Normal tt).
Proof.
  revert k. induction fuel as [|fuel IH]; intros k Hk Hf; [lia|].
  cbn [for_loop].
  destruct (Nat.ltb_spec (batchSize * k) (List.length data_urls)) as [Hlt|Hge].
  - apply batch_count_tight in Hlt.
    pose proof (await_Promise_all_run net selector
                  (JS.slice data_urls (batchSize * k) (batchSize * k + batchSize))
                  (sched (batchSize * k)%nat) (after k)) as Hrun.
    destruct (await_Promise_all _ _ _ _ _) as [s1 r] eqn:Hb.
    injection Hrun as Hs1 Hr. subst r.
    replace (batchSize * k + batchSize)%nat with (batchSize * S k)%nat
      by (unfold batchSize; lia).
    replace (update_progress dom (List.length data_urls) s1) with (after (S k)).
    + apply IH; lia.
    + cbn [after_batches]. unfold loop_body. rewrite Hb. reflexivity.
  - assert (k = batch_count (List.length data_urls)) as <-; [|reflexivity].
    destruct (Nat.eq_dec k (batch_count (List.length data_urls))); [assumption|].
    assert (Hlt : (k < batch_count (List.length data_urls))%nat) by lia.
    apply batch_count_tight in Hlt. lia.
Qed.

Lemma for_loop_total :
  for_loop net dom selector data_urls sched (S (List.length data_urls)) 0 Run.init
  = Some (after (batch_count (List.length data_urls)), Normal tt).
Proof.
  apply (for_loop_run (S (List.length data_urls)) 0); [lia|].
  unfold batch_count.
  pose proof (Nat.div_mod_eq (List.length data_urls + 4) 5).
  pose proof (Nat.mod_upper_bound (List.length data_urls + 4) 5). lia.
Qed.

End Loop.

(* ===================================================================== *)
(** ** A whole search *)
(* ===================================================================== *)

Section Search.

Context {browser : Browser}.
Variable net : Network.
Variable dom : Dom.
Variable sched : nat -> list nat.
Variable selector : string.
Variable data_urls : list UrlData.t.
Hypothesis Hready : ready net dom selector data_urls.

Local Abbreviation final := (final_locals net dom selector data_urls sched).

(** A search that starts its sweep always finishes it, and ends with the
    sorted results and no error. *)
Lemma performSearch_run (searchState : SearchState.t) :
  exists out,
    performSearch net dom sched searchState = Some out
    /\ state out = completed selector (sort_results (Run.results final))
    /\ running out
       = Some {| SearchState.selector := selector;
                 SearchState.isSearching := true;
                 SearchState.results := [];
                 SearchState.error := Null |}
    /\ locals out = final
    /\ trace out = GetCrawlStatus :: Run.trace final
    /\ returned out = Normal tt
    /\ notifications out
       = [ match sort_results (Run.results final) with
           | [] =>
               ("Selector " ++ JS.dquote ++ selector ++ JS.dquote
                  ++ " not found on any pages", KInfo)
           | _ =>
               ("Found " ++ JS.dquote ++ selector ++ JS.dquote ++ " on "
                  ++ JS.string_of_nat
                       (List.length (sort_results (Run.results final)))
                  ++ " page(s)", KSuccess)
           end ]%string.
Proof.
  destruct Hready as (value & data & Hin & Htrim & Hne & Hcs & Hurls & Hnil).
  unfold performSearch. rewrite Hin, Htrim.
  destruct (String.eqb_spec selector "") as [->|_]; [contradiction|].
  rewrite Hcs, Hurls.
  destruct data_urls as [|u us] eqn:Hd; [contradiction|].
  rewrite <- Hd, for_loop_total. eexists. split; [reflexivity|].
  cbn [state running locals trace returned notifications].
  unfold final_locals, completed.
  rewrite Hd. repeat split.
Qed.

Lemma final_results_perm :
  Permutation (Run.results final) (flat_map (page_matches net selector) data_urls).
Proof.
  unfold final_locals. rewrite after_batches_perm, covered. reflexivity.
Qed.

Lemma final_processed : Run.processed final = count_processed data_urls.
Proof. unfold final_locals. now rewrite after_batches_processed, covered. Qed.

(** A result is reported exactly when some inventory page contributes it. *)
Lemma results_origin (r : Result.t) :
  In r (sort_results (Run.results final))
  <-> exists u, In u data_urls /\ In r (page_matches net selector u).
Proof.
  rewrite <- in_flat_map. split; intros H.
  - eapply Permutation_in; [apply final_results_perm|].
    eapply Permutation_in; [symmetry; apply sort_results_perm|exact H].
  - eapply Permutation_in; [apply sort_results_perm|].
    eapply Permutation_in; [symmetry; apply final_results_perm|exact H].
Qed.

End Search.

(** What a contributed result looks like. *)
Lemma page_matches_shape {browser : Browser} (net : Network) (selector : string)
  (u : UrlData.t) (r : Result.t) :
  In r (page_matches net selector u) ->
  eligible u = true
  /\ r = {| Result.url := UrlData.url u;
            Result.title := JS.or (UrlData.title u) (Str (UrlData.url u));
            Result.count := Result.count r;
            Result.status_code := UrlData.status_code u |}
  /\ 0 < Result.count r
  /\ exists htmlData,
       fetch_html net (UrlData.url u) = Normal htmlData
       /\ success htmlData = true
       /\ JS.truthy (html htmlData) = true
       /\ countSelectorMatches (JS.to_string (html htmlData)) selector
          = Normal (Result.count r).
Proof.
  unfold page_matches, matches_of.
  destruct (eligible u); [|intros []].
  destruct (fetch_html net (UrlData.url u)) as [d|e]; [|intros []].
  destruct (success d) eqn:Hs; [|intros []].
  destruct (JS.truthy (html d)) eqn:Ht; [|intros []]. cbn [andb].
  destruct (countSelectorMatches _ _) as [n|e] eqn:Hc; [|intros []].
  destruct (Z.gtb_spec n 0) as [Hn|Hn]; [|intros []].
  intros [<-|[]]. cbn [Result.count]. repeat split; [lia|].
  exists d. now rewrite Hs, Ht.
Qed.

Lemma in_slice {A} (l : list A) (i j : nat) (x : A) : In x (JS.slice l i j) -> In x l.
Proof.
  unfold JS.slice. intros H.
  rewrite <- (firstn_skipn i l). apply in_or_app. right.
  rewrite <- (firstn_skipn (j - i) (skipn i l)). apply in_or_app. now left.
Qed.

(* ===================================================================== *)
(** ** The properties of the specification *)
(* ===================================================================== *)

(** The sample inputs run on the miniature engine. *)
#[local] Existing Instance Mini.browser.

(** Discharges [ready] for the sample server and page. *)
Ltac sample_ready :=
  unfold ready; do 2 eexists;
  repeat match goal with |- _ /\ _ => split end;
  try reflexivity; discriminate.

Lemma no_positive_results {browser : Browser} (net : Network) (selector : string)
  (data_urls : list UrlData.t) :
  (forall markup, countSelectorMatches markup selector = Normal 0) ->
  flat_map (page_matches net selector) data_urls = [].
Proof.
  intros H0. induction data_urls as [|u us IH]; [reflexivity|].
  cbn [flat_map]. rewrite IH, app_nil_r.
  destruct (page_matches net selector u) as [|r rs] eqn:Hp; [reflexivity|].
  destruct (page_matches_shape net selector u r) as (_ & _ & Hpos & d & _ & _ & _ & Hc).
  { rewrite Hp. now left. }
  rewrite H0 in Hc. injection Hc as Hc. lia.
Qed.

(** C1 (what the code does with an invalid selector).  When
    [querySelectorAll] rejects the selector, [countSelectorMatches] does not
    fail: its outer handler catches the "Invalid CSS selector" error and the
    function returns 0, as for a page without matches.  The search then
    ends like any search that found nothing: no error is stored, the
    session is not searching, and the notification is the informational
    "not found on any pages". *)
Theorem selector_syntax_error_is_swallowed {browser : Browser} (net : Network)
  (dom : Dom) (sched : nat -> list nat) (searchState : SearchState.t)
  (selector : string) (data_urls : list UrlData.t) :
  ready net dom selector data_urls ->
  (forall doc, exists e, querySelectorAll doc selector = Throw e) ->
  (forall markup, countSelectorMatches markup selector = Normal 0)
  /\ exists out,
       performSearch net dom sched searchState = Some out
       /\ state out = completed selector []
       /\ SearchState.error (state out) = Null
       /\ notifications out
          = [ ("Selector " ++ JS.dquote ++ selector ++ JS.dquote
                 ++ " not found on any pages", KInfo) ]%string
       /\ returned out = Normal tt.
Proof.
  intros Hready Hbad.
  assert (H0 : forall markup, countSelectorMatches markup selector = Normal 0).
  { intros markup. rewrite countSelectorMatches_value.
    destruct (parseFromString markup) as [doc|]; [|reflexivity].
    destruct (Hbad doc) as [e ->]. reflexivity. }
  split; [exact H0|].
  destruct (performSearch_run net dom sched selector data_urls Hready searchState)
    as (out & Hout & Hstate & _ & _ & _ & Hret & Hnote).
  assert (Hnil : sort_results
                   (Run.results (final_locals net dom selector data_urls sched)) = []).
  { apply Permutation_nil. symmetry.
    rewrite <- sort_results_perm, (final_results_perm net dom sched selector data_urls).
    now rewrite no_positive_results. }
  rewrite Hnil in Hstate, Hnote.
  exists out. rewrite Hstate. repeat split; assumption.
Qed.

(** The selector [h1[] on the sample site: the engine rejects it, the
    matcher returns 0 and the search ends without an error. *)
Lemma selector_syntax_error_is_swallowed_witness :
  ready (Mini.server Mini.two_pages Mini.two_site) (Mini.dom "h1[") "h1["
        Mini.two_pages
  /\ (forall doc, exists e, querySelectorAll doc "h1[" = Throw e)
  /\ (forall markup, countSelectorMatches markup "h1[" = Normal 0)
  /\ exists out,
       performSearch (Mini.server Mini.two_pages Mini.two_site) (Mini.dom "h1[")
                     Mini.fifo onLoad = Some out
       /\ state out = completed "h1[" []
       /\ SearchState.error (state out) = Null
       /\ notifications out
          = [ ("Selector " ++ JS.dquote ++ "h1[" ++ JS.dquote
                 ++ " not found on any pages", KInfo) ]%string
       /\ returned out = Normal tt.
Proof.
  assert (Hr : ready (Mini.server Mini.two_pages Mini.two_site) (Mini.dom "h1[")
                     "h1[" Mini.two_pages) by sample_ready.
  assert (Hb : forall doc : Document, exists e, querySelectorAll doc "h1[" = Throw e)
    by (intros doc; eexists; reflexivity).
  split; [exact Hr|]. split; [exact Hb|].
  exact (selector_syntax_error_is_swallowed
           (Mini.server Mini.two_pages Mini.two_site) (Mini.dom "h1[") Mini.fifo
           onLoad "h1[" Mini.two_pages Hr Hb).
Defined.

(** C5.  When the text of the input is empty or consists of white space
    only, its trimmed value is the empty string and [performSearch]
    returns at once with the error notification "Please enter a CSS
    selector": the session is exactly as before, no request is sent (neither
    for the crawl status nor for any page) and no sweep is started. *)
Theorem blank_selector_is_rejected {browser : Browser} (net : Network) (dom : Dom)
  (sched : nat -> list nat) (searchState : SearchState.t) (value : string) :
  selector_input dom = Some value ->
  all_white_space value = true ->
  JS.trim value = ""
  /\ exists out,
       performSearch net dom sched searchState = Some out
       /\ refused searchState out
       /\ notifications out = [("Please enter a CSS selector", KError)]
       /\ locals out = Run.init
       /\ returned out = Normal tt.
Proof.
  intros Hin Hws. pose proof (trim_all_white_space value Hws) as Ht.
  split; [exact Ht|].
  unfold performSearch. rewrite Hin, Ht. cbn [String.eqb].
  eexists. split; [reflexivity|]. unfold refused, leave; cbn. repeat split.
Qed.

Lemma blank_selector_is_rejected_witness :
  selector_input (Mini.dom "   ") = Some "   "
  /\ all_white_space "   " = true
  /\ JS.trim "   " = ""
  /\ exists out,
       performSearch (Mini.server Mini.two_pages Mini.two_site) (Mini.dom "   ")
                     Mini.lifo Mini.busy = Some out
       /\ refused Mini.busy out
       /\ notifications out = [("Please enter a CSS selector", KError)]
       /\ locals out = Run.init
       /\ returned out = Normal tt.
Proof.
  split; [reflexivity|]. split; [reflexivity|].
  exact (blank_selector_is_rejected
           (Mini.server Mini.two_pages Mini.two_site) (Mini.dom "   ") Mini.lifo
           Mini.busy "   " eq_refl eq_refl).
Defined.

(** *** The total *)

Lemma fold_left_counts (results : list Result.t) (acc : Z) :
  fold_left (fun sum r => sum + Result.count r) results acc
  = acc + sum_counts results.
Proof.
  revert acc. induction results as [|r rs IH]; intros acc; cbn [fold_left sum_counts fold_right].
  - lia.
  - rewrite IH. unfold sum_counts. lia.
Qed.

Lemma sum_counts_app (l1 l2 : list Result.t) :
  sum_counts (l1 ++ l2) = sum_counts l1 + sum_counts l2.
Proof.
  unfold sum_counts. induction l1 as [|r l1 IH]; cbn [app fold_right]; lia.
Qed.

Lemma sum_counts_perm (l1 l2 : list Result.t) :
  Permutation l1 l2 -> sum_counts l1 = sum_counts l2.
Proof.
  unfold sum_counts. induction 1; cbn [fold_right]; lia.
Qed.

(** C6.  For a search that has completed, the total that [renderResults]
    computes with [reduce] is the sum of the [count] fields of the results,
    which is also the sum of what the inventory pages contributed, whatever
    the order in which their fetches completed; when there is at least one
    result, [render] shows the table with that total. *)
Theorem totalMatches_is_sum_of_counts {browser : Browser} (net : Network) (dom : Dom)
  (sched : nat -> list nat) (searchState : SearchState.t) (selector : string)
  (data_urls : list UrlData.t) :
  ready net dom selector data_urls ->
  exists out,
    performSearch net dom sched searchState = Some out
    /\ totalMatches (SearchState.results (state out))
       = sum_counts (SearchState.results (state out))
    /\ sum_counts (SearchState.results (state out))
       = sum_counts (flat_map (page_matches net selector) data_urls)
    /\ (SearchState.results (state out) <> [] ->
        exists view,
          render (state out) (Some data_urls) = Some view
          /\ results_table view
             = Some (SearchState.results (state out),
                     sum_counts (SearchState.results (state out)))).
Proof.
  intros Hready.
  destruct (performSearch_run net dom sched selector data_urls Hready searchState)
    as (out & Hout & Hstate & _).
  exists out. split; [exact Hout|].
  assert (Htotal : forall l, totalMatches l = sum_counts l).
  { intros l. unfold totalMatches. rewrite fold_left_counts. lia. }
  split; [apply Htotal|]. split.
  - rewrite Hstate. cbn [completed SearchState.results].
    apply sum_counts_perm.
    etransitivity; [symmetry; apply sort_results_perm|].
    apply final_results_perm.
  - intros Hne. destruct Hready as (_ & _ & _ & _ & _ & _ & _ & Hnil).
    unfold render. destruct data_urls as [|u us]; [contradiction|].
    eexists. split; [reflexivity|]. cbn [results_table].
    destruct (SearchState.results (state out)) as [|r rs]; [contradiction|].
    now rewrite Htotal.
Qed.

(** Three pages with 2, 0 and 5 matches: two results, 5 before 2, and a
    total of 7. *)
Lemma totalMatches_is_sum_of_counts_witness :
  ready (Mini.server Mini.three_pages Mini.three_site) (Mini.dom "h1") "h1"
        Mini.three_pages
  /\ exists out,
       performSearch (Mini.server Mini.three_pages Mini.three_site) (Mini.dom "h1")
                     Mini.lifo onLoad = Some out
       /\ totalMatches (SearchState.results (state out))
          = sum_counts (SearchState.results (state out))
       /\ sum_counts (SearchState.results (state out))
          = sum_counts (flat_map (page_matches
                                    (Mini.server Mini.three_pages Mini.three_site) "h1")
                                 Mini.three_pages)
       /\ (SearchState.results (state out) <> [] ->
           exists view,
             render (state out) (Some Mini.three_pages) = Some view
             /\ results_table view
                = Some (SearchState.results (state out),
                        sum_counts (SearchState.results (state out)))).
Proof.
  assert (Hr : ready (Mini.server Mini.three_pages Mini.three_site) (Mini.dom "h1")
                     "h1" Mini.three_pages) by sample_ready.
  split; [exact Hr|].
  exact (totalMatches_is_sum_of_counts
           (Mini.server Mini.three_pages Mini.three_site) (Mini.dom "h1") Mini.lifo
           onLoad "h1" Mini.three_pages Hr).
Defined.

Example three_pages_scenario :
  exists out,
    performSearch (Mini.server Mini.three_pages Mini.three_site) (Mini.dom "h1")
                  Mini.fifo onLoad = Some out
    /\ map Result.url (SearchState.results (state out)) = ["c"; "a"]
    /\ map Result.count (SearchState.results (state out)) = [5; 2]
    /\ totalMatches (SearchState.results (state out)) = 7.
Proof. eexists. split; [vm_compute; reflexivity|]. repeat split. Qed.

(** *** Titles *)

(** C10.  Every reported result comes from an inventory page and carries
    [urlData.title || urlData.url] as its title: a string, never [null] and
    never [undefined]; it is the page's own title when that is a non-empty
    string, and the page's URL when the title is [null], missing or
    empty. *)
Theorem result_title_falls_back_to_url {browser : Browser} (net : Network) (dom : Dom)
  (sched : nat -> list nat) (searchState : SearchState.t) (selector : string)
  (data_urls : list UrlData.t) :
  ready net dom selector data_urls ->
  exists out,
    performSearch net dom sched searchState = Some out
    /\ forall r, In r (SearchState.results (state out)) ->
         Result.title r <> Null
         /\ Result.title r <> Undefined
         /\ exists u,
              In u data_urls
              /\ Result.url r = UrlData.url u
              /\ (forall t, UrlData.title u = Str t -> t <> "" ->
                            Result.title r = Str t)
              /\ (UrlData.title u = Null \/ UrlData.title u = Undefined
                  \/ UrlData.title u = Str "" ->
                  Result.title r = Str (UrlData.url u)).
Proof.
  intros Hready.
  destruct (performSearch_run net dom sched selector data_urls Hready searchState)
    as (out & Hout & Hstate & _).
  exists out. split; [exact Hout|]. intros r Hr.
  rewrite Hstate in Hr. cbn [completed SearchState.results] in Hr.
  apply results_origin in Hr as (u & Hu & Hr).
  apply page_matches_shape in Hr as (_ & -> & _).
  cbn [Result.title Result.url].
  destruct (or_is_string (UrlData.title u) (UrlData.url u)) as [s Hs].
  split; [rewrite Hs; discriminate|]. split; [rewrite Hs; discriminate|].
  exists u. split; [exact Hu|]. split; [reflexivity|]. split.
  - intros t Ht Hne. rewrite Ht. apply or_truthy. cbn [JS.truthy].
    destruct (String.eqb_spec t ""); [contradiction|reflexivity].
  - intros [Ht|[Ht|Ht]]; rewrite Ht; reflexivity.
Qed.

(** A titled page and an untitled one: the first result shows the title,
    the second the URL. *)
Lemma result_title_falls_back_to_url_witness :
  ready (Mini.server [Mini.page "a"; Mini.untitled] (Mini.site [("a", 1); ("u", 1)]%nat))
        (Mini.dom "h1") "h1" [Mini.page "a"; Mini.untitled]
  /\ exists out,
       performSearch
         (Mini.server [Mini.page "a"; Mini.untitled] (Mini.site [("a", 1); ("u", 1)]%nat))
         (Mini.dom "h1") Mini.fifo onLoad = Some out
       /\ forall r, In r (SearchState.results (state out)) ->
            Result.title r <> Null
            /\ Result.title r <> Undefined
            /\ exists u,
                 In u [Mini.page "a"; Mini.untitled]
                 /\ Result.url r = UrlData.url u
                 /\ (forall t, UrlData.title u = Str t -> t <> "" ->
                               Result.title r = Str t)
                 /\ (UrlData.title u = Null \/ UrlData.title u = Undefined
                     \/ UrlData.title u = Str "" ->
                     Result.title r = Str (UrlData.url u)).
Proof.
  assert (Hr : ready
                 (Mini.server [Mini.page "a"; Mini.untitled]
                              (Mini.site [("a", 1); ("u", 1)]%nat))
                 (Mini.dom "h1") "h1" [Mini.page "a"; Mini.untitled])
    by sample_ready.
  split; [exact Hr|].
  exact (result_title_falls_back_to_url
           (Mini.server [Mini.page "a"; Mini.untitled]
                        (Mini.site [("a", 1); ("u", 1)]%nat))
           (Mini.dom "h1") Mini.fifo onLoad "h1" [Mini.page "a"; Mini.untitled] Hr).
Defined.

Example untitled_page_shows_url :
  exists out,
    performSearch
      (Mini.server [Mini.page "a"; Mini.untitled] (Mini.site [("a", 1); ("u", 1)]%nat))
      (Mini.dom "h1") Mini.fifo onLoad = Some out
    /\ map Result.title (SearchState.results (state out))
       = [Str "Title of a"; Str "u"].
Proof. eexists. split; [vm_compute; reflexivity|]. reflexivity. Qed.

(** *** Pages that are not searched *)

Lemma in_batch (data_urls : list UrlData.t) (k : nat) (u : UrlData.t) :
  In u (batch data_urls k) -> In u data_urls.
Proof. apply in_slice. Qed.

Lemma fetch_events_eligible {browser : Browser} (net : Network) (dom : Dom)
  (selector : string) (data_urls : list UrlData.t) (sched : nat -> list nat)
  (n : nat) (url : string) :
  In (PostFetchHtml url)
     (flat_map (batch_events net dom selector data_urls sched) (seq 0 n)) ->
  exists u, In u data_urls /\ eligible u = true /\ UrlData.url u = url.
Proof.
  intros H. apply in_flat_map in H as (k & _ & H).
  unfold batch_events in H.
  apply in_app_or in H as [H|H]; [|apply in_app_or in H as [H|H]].
  - apply in_map_iff in H as (u & Hev & Hu).
    unfold start_event in Hev. destruct (eligible u) eqn:He; [|discriminate].
    injection Hev as Hev. exists u. split; [|split].
    + eapply in_batch, Hu.
    + exact He.
    + exact Hev.
  - apply in_map_iff in H as (u & Hev & _). discriminate.
  - destruct (container dom && search_btn dom); [|destruct H].
    destruct H as [H|[]]. discriminate.
Qed.

(** C7 (what the code does with a page that is not searched).  A page
    whose status is not 200, or whose content type does not contain
    "text/html", is never fetched and never reported, whatever its markup:
    every fetch that the search issues and every result that it reports
    belongs to an inventory page that passes both guards.  Its callback
    returns at once and pushes nothing, but it advances [processed] by two,
    not by one: the increment before [return] is followed by the one in
    [finally].  So the counter ends at the number of searched pages plus
    twice the number of skipped pages. *)
Theorem ineligible_pages_are_skipped {browser : Browser} (net : Network) (dom : Dom)
  (sched : nat -> list nat) (searchState : SearchState.t) (selector : string)
  (data_urls : list UrlData.t) :
  ready net dom selector data_urls ->
  exists out,
    performSearch net dom sched searchState = Some out
    /\ (forall url, In (PostFetchHtml url) (trace out) ->
          exists u, In u data_urls /\ eligible u = true /\ UrlData.url u = url)
    /\ (forall r, In r (SearchState.results (state out)) ->
          exists u, In u data_urls /\ eligible u = true
                    /\ UrlData.status_code u = 200
                    /\ Result.url r = UrlData.url u
                    /\ Result.status_code r = 200)
    /\ (forall u, In u data_urls -> eligible u = false ->
          page_matches net selector u = []
          /\ exists m, page_task selector u = Sync m
                       /\ forall s, Run.results (fst (m s)) = Run.results s
                                    /\ Run.trace (fst (m s)) = Run.trace s
                                    /\ Run.processed (fst (m s)) = Run.processed s + 2
                                    /\ snd (m s) = Normal tt)
    /\ Run.processed (locals out)
       = Z.of_nat (List.length (filter eligible data_urls))
         + 2 * Z.of_nat (List.length (filter (fun u => negb (eligible u)) data_urls)).
Proof.
  intros Hready.
  destruct (performSearch_run net dom sched selector data_urls Hready searchState)
    as (out & Hout & Hstate & _ & Hloc & Htrace & _).
  exists out. split; [exact Hout|].
  split; [|split; [|split]].
  - intros url H. rewrite Htrace in H. destruct H as [H|H]; [discriminate|].
    unfold final_locals in H. rewrite after_batches_trace in H.
    eapply fetch_events_eligible, H.
  - intros r Hr. rewrite Hstate in Hr. cbn [completed SearchState.results] in Hr.
    apply results_origin in Hr as (u & Hu & Hr).
    apply page_matches_shape in Hr as (He & -> & _).
    exists u. cbn [Result.url Result.status_code].
    pose proof He as He'. unfold eligible in He'.
    apply andb_true_iff in He' as [Hs _]. apply Z.eqb_eq in Hs.
    repeat split; assumption.
  - intros u Hu He. split.
    + unfold page_matches. now rewrite He.
    + destruct (page_task_ineligible selector u He) as (m & Hm & Hrun).
      exists m. split; [exact Hm|]. intros s. rewrite Hrun.
      cbn [fst snd Run.results Run.trace Run.processed Run.incr].
      repeat split. lia.
  - rewrite Hloc, final_processed. reflexivity.
Qed.

(** Six pages of which the second answered 404: it is neither fetched nor
    reported, and the counter ends at 7. *)
Lemma ineligible_pages_are_skipped_witness :
  ready (Mini.server Mini.mixed_pages Mini.six_site) (Mini.dom "h1") "h1"
        Mini.mixed_pages
  /\ exists out,
       performSearch (Mini.server Mini.mixed_pages Mini.six_site) (Mini.dom "h1")
                     Mini.lifo onLoad = Some out
       /\ (forall url, In (PostFetchHtml url) (trace out) ->
             exists u, In u Mini.mixed_pages /\ eligible u = true
                       /\ UrlData.url u = url)
       /\ (forall r, In r (SearchState.results (state out)) ->
             exists u, In u Mini.mixed_pages /\ eligible u = true
                       /\ UrlData.status_code u = 200
                       /\ Result.url r = UrlData.url u
                       /\ Result.status_code r = 200)
       /\ (forall u, In u Mini.mixed_pages -> eligible u = false ->
             page_matches (Mini.server Mini.mixed_pages Mini.six_site) "h1" u = []
             /\ exists m, page_task "h1" u = Sync m
                          /\ forall s, Run.results (fst (m s)) = Run.results s
                                       /\ Run.trace (fst (m s)) = Run.trace s
                                       /\ Run.processed (fst (m s))
                                          = Run.processed s + 2
                                       /\ snd (m s) = Normal tt)
       /\ Run.processed (locals out) = 7.
Proof.
  assert (Hr : ready (Mini.server Mini.mixed_pages Mini.six_site) (Mini.dom "h1")
                     "h1" Mini.mixed_pages) by sample_ready.
  split; [exact Hr|].
  exact (ineligible_pages_are_skipped
           (Mini.server Mini.mixed_pages Mini.six_site) (Mini.dom "h1") Mini.lifo
           onLoad "h1" Mini.mixed_pages Hr).
Defined.

Example missing_page_is_not_fetched :
  exists out,
    performSearch (Mini.server Mini.mixed_pages Mini.six_site) (Mini.dom "h1")
                  Mini.fifo onLoad = Some out
    /\ ~ In (PostFetchHtml "p2") (trace out)
    /\ map Result.url (SearchState.results (state out))
       = ["p1"; "p3"; "p4"; "p5"; "p6"]
    /\ Run.processed (locals out) = 7.
Proof.
  eexists. split; [vm_compute; reflexivity|]. split; [|split; reflexivity].
  cbn. intros H.
  repeat (destruct H as [H|H]; [discriminate|]). exact H.
Qed.

(** *** Failures of single pages *)

Lemma failed_page_contributes_nothing {browser : Browser} (selector : string)
  (u : UrlData.t) (response : JS.completion HtmlData) :
  retrieval_failed response = true -> matches_of selector u response = [].
Proof.
  unfold retrieval_failed, matches_of.
  destruct response as [d|e]; [|reflexivity].
  destruct (success d && JS.truthy (html d)); [discriminate|reflexivity].
Qed.

(** C8.  Let a page pass both guards and let its retrieval fail: the
    request throws, or the answer says [success: false] or has no markup.
    Then the page's callback pushes nothing, increments [processed] exactly
    once and returns normally; matching itself never throws.  The search
    completes without an error, reports no result for that URL, reports
    every result that any inventory page contributes, and ends with the
    same value of [processed] as if nothing had failed. *)
Theorem page_failures_are_isolated {browser : Browser} (net : Network) (dom : Dom)
  (sched : nat -> list nat) (searchState : SearchState.t) (selector : string)
  (data_urls : list UrlData.t) (u : UrlData.t) :
  ready net dom selector data_urls ->
  In u data_urls ->
  eligible u = true ->
  retrieval_failed (fetch_html net (UrlData.url u)) = true ->
  (forall s, continuation selector u (fetch_html net (UrlData.url u)) s
             = (Run.incr s, Normal tt))
  /\ (forall markup, exists n, countSelectorMatches markup selector = Normal n)
  /\ exists out,
       performSearch net dom sched searchState = Some out
       /\ returned out = Normal tt
       /\ SearchState.error (state out) = Null
       /\ SearchState.isSearching (state out) = false
       /\ (forall r, In r (SearchState.results (state out)) ->
             Result.url r <> UrlData.url u)
       /\ (forall v r, In v data_urls -> In r (page_matches net selector v) ->
             In r (SearchState.results (state out)))
       /\ Run.processed (locals out) = count_processed data_urls.
Proof.
  intros Hready Hu He Hfail. split; [|split].
  - intros s. rewrite continuation_run by exact He.
    rewrite failed_page_contributes_nothing by exact Hfail.
    do 2 f_equal. unfold push_all. rewrite app_nil_r. now destruct s.
  - intros markup. destruct (countSelectorMatches_returns markup selector)
      as (n & Hn & _). now exists n.
  - destruct (performSearch_run net dom sched selector data_urls Hready searchState)
      as (out & Hout & Hstate & _ & Hloc & _ & Hret & _).
    exists out. split; [exact Hout|]. split; [exact Hret|].
    rewrite Hstate. cbn [completed SearchState.error SearchState.isSearching
                           SearchState.results].
    split; [reflexivity|]. split; [reflexivity|]. split; [|split].
    + intros r Hr Heq. apply results_origin in Hr as (v & _ & Hr).
      apply page_matches_shape in Hr as (_ & Hshape & _ & d & Hd & Hs & Ht & _).
      rewrite Hshape in Heq. cbn [Result.url] in Heq.
      rewrite <- Heq, Hd in Hfail. cbn [retrieval_failed] in Hfail.
      rewrite Hs, Ht in Hfail. discriminate.
    + intros v r Hv Hr. apply results_origin. now exists v.
    + rewrite Hloc. apply final_processed.
Qed.

(** Twelve pages, the server fails on the seventh: eleven results of three
    matches each. *)
Lemma page_failures_are_isolated_witness :
  ready (Mini.server Mini.twelve_pages Mini.twelve_site) (Mini.dom "h1") "h1"
        Mini.twelve_pages
  /\ In (Mini.page "p7") Mini.twelve_pages
  /\ eligible (Mini.page "p7") = true
  /\ retrieval_failed
       (fetch_html (Mini.server Mini.twelve_pages Mini.twelve_site)
                   (UrlData.url (Mini.page "p7"))) = true
  /\ (forall s, continuation "h1" (Mini.page "p7")
                  (fetch_html (Mini.server Mini.twelve_pages Mini.twelve_site)
                              (UrlData.url (Mini.page "p7"))) s
                = (Run.incr s, Normal tt))
  /\ (forall markup, exists n, countSelectorMatches markup "h1" = Normal n)
  /\ exists out,
       performSearch (Mini.server Mini.twelve_pages Mini.twelve_site) (Mini.dom "h1")
                     Mini.lifo onLoad = Some out
       /\ returned out = Normal tt
       /\ SearchState.error (state out) = Null
       /\ SearchState.isSearching (state out) = false
       /\ (forall r, In r (SearchState.results (state out)) ->
             Result.url r <> UrlData.url (Mini.page "p7"))
       /\ (forall v r, In v Mini.twelve_pages ->
             In r (page_matches (Mini.server Mini.twelve_pages Mini.twelve_site)
                                "h1" v) ->
             In r (SearchState.results (state out)))
       /\ Run.processed (locals out) = count_processed Mini.twelve_pages.
Proof.
  assert (Hr : ready (Mini.server Mini.twelve_pages Mini.twelve_site) (Mini.dom "h1")
                     "h1" Mini.twelve_pages) by sample_ready.
  assert (Hin : In (Mini.page "p7") Mini.twelve_pages)
    by (do 6 right; left; reflexivity).
  split; [exact Hr|]. split; [exact Hin|].
  split; [reflexivity|]. split; [reflexivity|].
  exact (page_failures_are_isolated
           (Mini.server Mini.twelve_pages Mini.twelve_site) (Mini.dom "h1") Mini.lifo
           onLoad "h1" Mini.twelve_pages (Mini.page "p7") Hr Hin eq_refl eq_refl).
Defined.

Example twelve_pages_scenario :
  exists out,
    performSearch (Mini.server Mini.twelve_pages Mini.twelve_site) (Mini.dom "h1")
                  Mini.fifo onLoad = Some out
    /\ map Result.url (SearchState.results (state out))
       = ["p1"; "p2"; "p3"; "p4"; "p5"; "p6"; "p8"; "p9"; "p10"; "p11"; "p12"]
    /\ map Result.count (SearchState.results (state out))
       = [3; 3; 3; 3; 3; 3; 3; 3; 3; 3; 3]
    /\ totalMatches (SearchState.results (state out)) = 33
    /\ Run.processed (locals out) = 12
    /\ fetch_batch_sizes 0 (trace out) = [5; 5; 2]%nat
    /\ button_texts (trace out) = [Some 42; Some 83; Some 100].
Proof. eexists. split; [vm_compute; reflexivity|]. repeat split. Qed.

(** *** The order of the results *)

(** C2, as the code has it.  The reported results are sorted by count,
    largest first, and results with equal counts keep the order in which
    they were pushed.  Results are pushed batch by batch in inventory order
    and, inside a batch, in the order in which the fetches complete, which
    is some permutation of the batch's searched pages.  When the fetches of
    every batch complete in the order they were issued, results with equal
    counts are in inventory order. *)
Theorem results_sorted_ties_in_push_order {browser : Browser} (net : Network)
  (dom : Dom) (sched : nat -> list nat) (searchState : SearchState.t)
  (selector : string) (data_urls : list UrlData.t) :
  ready net dom selector data_urls ->
  exists out,
    performSearch net dom sched searchState = Some out
    /\ StronglySorted count_desc (SearchState.results (state out))
    /\ (forall c, with_count c (SearchState.results (state out))
                  = with_count c (Run.results (locals out)))
    /\ Run.results (locals out)
       = flat_map (fun k => flat_map (page_matches net selector)
                                     (settle_order data_urls sched k))
                  (seq 0 (batch_count (List.length data_urls)))
    /\ (forall k, Permutation (settle_order data_urls sched k)
                              (filter eligible (batch data_urls k)))
    /\ ((forall i, sched i = []) ->
        ties_in_inventory_order net selector data_urls
                                (SearchState.results (state out))).
Proof.
  intros Hready.
  destruct (performSearch_run net dom sched selector data_urls Hready searchState)
    as (out & Hout & Hstate & _ & Hloc & _).
  exists out. split; [exact Hout|].
  rewrite Hstate, Hloc. cbn [completed SearchState.results].
  split; [apply sort_results_sorted|].
  split; [intros c; apply sort_results_stable|].
  split; [apply after_batches_results|].
  split; [intros k; symmetry; apply completion_order_perm|].
  intros Hfifo c. rewrite sort_results_stable. unfold final_locals.
  now rewrite after_batches_fifo, covered.
Qed.

Lemma results_sorted_ties_in_push_order_witness :
  ready (Mini.server Mini.three_pages Mini.three_site) (Mini.dom "h1") "h1"
        Mini.three_pages
  /\ exists out,
       performSearch (Mini.server Mini.three_pages Mini.three_site) (Mini.dom "h1")
                     Mini.fifo onLoad = Some out
       /\ StronglySorted count_desc (SearchState.results (state out))
       /\ (forall c, with_count c (SearchState.results (state out))
                     = with_count c (Run.results (locals out)))
       /\ Run.results (locals out)
          = flat_map (fun k => flat_map
                                 (page_matches
                                    (Mini.server Mini.three_pages Mini.three_site) "h1")
                                 (settle_order Mini.three_pages Mini.fifo k))
                     (seq 0 (batch_count (List.length Mini.three_pages)))
       /\ (forall k, Permutation (settle_order Mini.three_pages Mini.fifo k)
                                 (filter eligible (batch Mini.three_pages k)))
       /\ ((forall i, Mini.fifo i = []) ->
           ties_in_inventory_order (Mini.server Mini.three_pages Mini.three_site)
                                   "h1" Mini.three_pages
                                   (SearchState.results (state out))).
Proof.
  assert (Hr : ready (Mini.server Mini.three_pages Mini.three_site) (Mini.dom "h1")
                     "h1" Mini.three_pages) by sample_ready.
  split; [exact Hr|].
  exact (results_sorted_ties_in_push_order
           (Mini.server Mini.three_pages Mini.three_site) (Mini.dom "h1") Mini.fifo
           onLoad "h1" Mini.three_pages Hr).
Defined.

(** C2 as stated fails.  Two pages with one match each; the fetch of the
    second completes first.  The results come out second page first,
    although the inventory lists it last. *)
Lemma ties_follow_completion_order :
  exists out,
    performSearch (Mini.server Mini.two_pages Mini.two_site) (Mini.dom "h1")
                  Mini.lifo onLoad = Some out
    /\ map UrlData.url Mini.two_pages = ["a"; "b"]
    /\ map Result.url (SearchState.results (state out)) = ["b"; "a"]
    /\ map Result.count (SearchState.results (state out)) = [1; 1]
    /\ ~ ties_in_inventory_order (Mini.server Mini.two_pages Mini.two_site) "h1"
                                 Mini.two_pages (SearchState.results (state out)).
Proof.
  eexists. split; [vm_compute; reflexivity|].
  split; [reflexivity|]. split; [reflexivity|]. split; [reflexivity|].
  intros H. specialize (H 1). vm_compute in H. discriminate H.
Qed.

(** *** Batches *)

Lemma batch_count_step (n : nat) :
  (0 < n)%nat -> batch_count n = S (batch_count (n - 5)).
Proof.
  intros Hn. unfold batch_count.
  pose proof (Nat.div_mod_eq (n + 4) 5).
  pose proof (Nat.mod_upper_bound (n + 4) 5).
  pose proof (Nat.div_mod_eq (n - 5 + 4) 5).
  pose proof (Nat.mod_upper_bound (n - 5 + 4) 5). lia.
Qed.

Lemma chunks_aux_slices {A} (fuel : nat) (l : list A) :
  (List.length l <= fuel)%nat ->
  chunks_aux fuel batchSize l
  = map (fun k => firstn batchSize (skipn (batchSize * k) l))
        (seq 0 (batch_count (List.length l))).
Proof.
  unfold batchSize.
  revert l. induction fuel as [|fuel IH]; intros l Hl.
  - destruct l; [reflexivity|cbn [List.length] in Hl; lia].
  - destruct l as [|x l]; [reflexivity|].
    cbn [chunks_aux]. cbn [List.length] in Hl.
    rewrite IH by (rewrite length_skipn; cbn [List.length]; lia).
    rewrite (batch_count_step (List.length (x :: l))) by (cbn [List.length]; lia).
    rewrite length_skipn. cbn [seq map]. f_equal.
    rewrite <- seq_shift, map_map. apply map_ext. intros k.
    rewrite skipn_skipn. do 2 f_equal. lia.
Qed.

(** The batches of the loop are the consecutive groups of five of the
    whole inventory. *)
Lemma batches_are_chunks (data_urls : list UrlData.t) :
  map (batch data_urls) (seq 0 (batch_count (List.length data_urls)))
  = chunks batchSize data_urls.
Proof.
  unfold chunks. rewrite chunks_aux_slices by lia.
  apply map_ext. intros k. unfold batch. apply slice_batch.
Qed.

Lemma batch_length (data_urls : list UrlData.t) (k : nat) :
  (List.length (batch data_urls k) <= batchSize)%nat.
Proof. unfold batch. rewrite slice_batch, length_firstn. lia. Qed.

(** C9, as the code has it.  The loop cuts the whole inventory, searched
    and skipped pages alike, into consecutive slices of five.  The events of
    a search are those of the slices one after the other: in each slice all
    callbacks are started first (a fetch is issued for a page that passes
    the guards, a skipped page returns at once), then the fetches complete
    in some order, then the progress is shown; nothing of the next slice
    happens before that.  A slice has at most five pages, hence at most
    five fetches in flight.  An inventory of twelve pages is cut into
    slices of 5, 5 and 2. *)
Theorem batches_are_slices_of_the_inventory {browser : Browser} (net : Network)
  (dom : Dom) (sched : nat -> list nat) (searchState : SearchState.t)
  (selector : string) (data_urls : list UrlData.t) :
  ready net dom selector data_urls ->
  exists out,
    performSearch net dom sched searchState = Some out
    /\ trace out
       = GetCrawlStatus
         :: flat_map (batch_events net dom selector data_urls sched)
                     (seq 0 (batch_count (List.length data_urls)))
    /\ map (batch data_urls) (seq 0 (batch_count (List.length data_urls)))
       = chunks batchSize data_urls
    /\ (forall k, (List.length (batch data_urls k) <= 5)%nat
                  /\ Permutation (settle_order data_urls sched k)
                                 (filter eligible (batch data_urls k)))
    /\ (List.length data_urls = 12%nat ->
        map (@List.length _) (chunks batchSize data_urls) = [5; 5; 2]%nat).
Proof.
  intros Hready.
  destruct (performSearch_run net dom sched selector data_urls Hready searchState)
    as (out & Hout & _ & _ & _ & Htrace & _).
  exists out. split; [exact Hout|].
  split; [rewrite Htrace; unfold final_locals; now rewrite after_batches_trace|].
  split; [apply batches_are_chunks|]. split.
  - intros k. split; [apply batch_length|].
    symmetry. apply completion_order_perm.
  - intros H12. clear -H12.
    do 12 (destruct data_urls as [|? data_urls]; [discriminate H12|]).
    destruct data_urls; [reflexivity|discriminate H12].
Qed.

Lemma batches_are_slices_of_the_inventory_witness :
  ready (Mini.server Mini.twelve_pages Mini.twelve_site) (Mini.dom "h1") "h1"
        Mini.twelve_pages
  /\ exists out,
       performSearch (Mini.server Mini.twelve_pages Mini.twelve_site) (Mini.dom "h1")
                     Mini.lifo onLoad = Some out
       /\ trace out
          = GetCrawlStatus
            :: flat_map (batch_events (Mini.server Mini.twelve_pages Mini.twelve_site)
                                      (Mini.dom "h1") "h1" Mini.twelve_pages Mini.lifo)
                        (seq 0 (batch_count (List.length Mini.twelve_pages)))
       /\ map (batch Mini.twelve_pages)
              (seq 0 (batch_count (List.length Mini.twelve_pages)))
          = chunks batchSize Mini.twelve_pages
       /\ (forall k, (List.length (batch Mini.twelve_pages k) <= 5)%nat
                     /\ Permutation (settle_order Mini.twelve_pages Mini.lifo k)
                                    (filter eligible (batch Mini.twelve_pages k)))
       /\ (List.length Mini.twelve_pages = 12%nat ->
           map (@List.length _) (chunks batchSize Mini.twelve_pages) = [5; 5; 2]%nat).
Proof.
  assert (Hr : ready (Mini.server Mini.twelve_pages Mini.twelve_site) (Mini.dom "h1")
                     "h1" Mini.twelve_pages) by sample_ready.
  split; [exact Hr|].
  exact (batches_are_slices_of_the_inventory
           (Mini.server Mini.twelve_pages Mini.twelve_site) (Mini.dom "h1") Mini.lifo
           onLoad "h1" Mini.twelve_pages Hr).
Defined.

(** C9 as stated fails.  Six pages of which the second answered 404: the
    five searched pages would form a single batch of five, but the loop
    fetches four of them in its first iteration and the fifth in its
    second, after the first four have completed. *)
Lemma batches_are_not_cut_from_searched_pages :
  exists out,
    performSearch (Mini.server Mini.mixed_pages Mini.six_site) (Mini.dom "h1")
                  Mini.fifo onLoad = Some out
    /\ map (@List.length _) (chunks batchSize (filter eligible Mini.mixed_pages))
       = [5]%nat
    /\ fetch_batch_sizes 0 (trace out) = [4; 1]%nat
    /\ trace out
       = [GetCrawlStatus;
          PostFetchHtml "p1"; Settled "p2"; PostFetchHtml "p3"; PostFetchHtml "p4";
          PostFetchHtml "p5";
          Settled "p1"; Settled "p3"; Settled "p4"; Settled "p5";
          ButtonText (Some 100);
          PostFetchHtml "p6"; Settled "p6"; ButtonText (Some 117)].
Proof. eexists. split; [vm_compute; reflexivity|]. repeat split. Qed.

(** *** Progress *)

Lemma button_texts_app (l1 l2 : list Event) :
  button_texts (l1 ++ l2) = button_texts l1 ++ button_texts l2.
Proof. apply flat_map_app. Qed.

Lemma button_texts_starts (l : list UrlData.t) : button_texts (map start_event l) = [].
Proof.
  induction l as [|u l IH]; [reflexivity|]. cbn [map].
  unfold start_event at 1. destruct (eligible u); exact IH.
Qed.

Lemma button_texts_settles (l : list UrlData.t) :
  button_texts (map settle_event l) = [].
Proof. induction l as [|u l IH]; [reflexivity|exact IH]. Qed.

Lemma button_texts_batches {browser : Browser} (net : Network) (dom : Dom)
  (selector : string) (data_urls : list UrlData.t) (sched : nat -> list nat)
  (ks : list nat) :
  container dom = true -> search_btn dom = true ->
  button_texts (flat_map (batch_events net dom selector data_urls sched) ks)
  = map (fun k => progress
                    (Run.processed
                       (after_batches net dom selector data_urls sched (S k)))
                    (List.length data_urls)) ks.
Proof.
  intros Hc Hb. induction ks as [|k ks IH]; [reflexivity|].
  cbn [flat_map map]. rewrite button_texts_app, IH. unfold batch_events.
  rewrite !button_texts_app, button_texts_starts, button_texts_settles, Hc, Hb.
  reflexivity.
Qed.

Lemma forallb_firstn {A} (f : A -> bool) (n : nat) (l : list A) :
  forallb f l = true -> forallb f (firstn n l) = true.
Proof.
  revert n. induction l as [|x l IH]; intros [|n]; cbn [firstn forallb]; auto.
  intros H. apply andb_true_iff in H as [-> H]. cbn [andb]. auto.
Qed.

(** C3, as the code has it.  When a page that passes the guards settles,
    whatever the answer to its fetch, [processed] goes up by exactly one.
    The progress is shown once after each batch, not after each page, and
    its value is [Math.round((processed / totalUrls) * 100)] computed in
    double precision, where [totalUrls] is the length of the whole
    inventory.  The counter never decreases, neither when a callback runs
    nor from batch to batch.  When
    every inventory page passes the guards, the counter after [k] batches
    is the number of pages in them, and it equals [totalUrls] when the
    search is over. *)
Theorem progress_is_published_per_batch {browser : Browser} (net : Network)
  (dom : Dom) (sched : nat -> list nat) (searchState : SearchState.t)
  (selector : string) (data_urls : list UrlData.t) :
  ready net dom selector data_urls ->
  container dom = true ->
  search_btn dom = true ->
  (forall u response s,
      eligible u = true ->
      Run.processed (fst (continuation selector u response s)) = Run.processed s + 1
      /\ snd (continuation selector u response s) = Normal tt)
  /\ (forall u response s,
        Run.processed s
        <= Run.processed (fst (continuation selector u response s)))
  /\ exists out,
       performSearch net dom sched searchState = Some out
       /\ locals out
          = after_batches net dom selector data_urls sched
                          (batch_count (List.length data_urls))
       /\ button_texts (trace out)
          = map (fun k => progress
                            (Run.processed
                               (after_batches net dom selector data_urls sched (S k)))
                            (List.length data_urls))
                (seq 0 (batch_count (List.length data_urls)))
       /\ (forall k,
             Run.processed (after_batches net dom selector data_urls sched k)
             <= Run.processed (after_batches net dom selector data_urls sched (S k)))
       /\ (forallb eligible data_urls = true ->
           (forall k,
               Run.processed (after_batches net dom selector data_urls sched k)
               = Z.of_nat (Nat.min (batchSize * k) (List.length data_urls)))
           /\ Run.processed (locals out) = Z.of_nat (List.length data_urls)).
Proof.
  intros Hready Hc Hb. split; [|split].
  - intros u response s He. rewrite continuation_run by exact He.
    cbn [fst snd Run.processed Run.incr push_all]. split; reflexivity.
  - intros u response s. destruct (eligible u) eqn:He.
    + rewrite continuation_run by exact He.
      cbn [fst Run.processed Run.incr push_all]. lia.
    + unfold continuation.
      destruct (page_task_ineligible selector u He) as (m & -> & Hm).
      rewrite Hm. cbn [fst Run.processed Run.incr]. lia.
  - destruct (performSearch_run net dom sched selector data_urls Hready searchState)
      as (out & Hout & _ & _ & Hloc & Htrace & _).
    exists out. split; [exact Hout|]. split; [exact Hloc|].
    split; [|split].
    + rewrite Htrace. unfold final_locals. rewrite after_batches_trace.
      cbn [button_texts flat_map app].
      apply (button_texts_batches net dom selector data_urls sched _ Hc Hb).
    + apply after_batches_monotone.
    + intros Hall. split.
      * intros k. rewrite after_batches_processed, count_processed_eligible.
        -- now rewrite length_firstn.
        -- now apply forallb_firstn.
      * rewrite Hloc. unfold final_locals.
        rewrite after_batches_processed, covered.
        now apply count_processed_eligible.
Qed.

(** Six pages that all pass the guards: two batches, progress 83 and 100. *)
Lemma progress_is_published_per_batch_witness :
  ready (Mini.server Mini.six_pages Mini.six_site) (Mini.dom "h1") "h1" Mini.six_pages
  /\ container (Mini.dom "h1") = true
  /\ search_btn (Mini.dom "h1") = true
  /\ (forall u response s,
         eligible u = true ->
         Run.processed (fst (continuation "h1" u response s)) = Run.processed s + 1
         /\ snd (continuation "h1" u response s) = Normal tt)
  /\ (forall u response s,
        Run.processed s <= Run.processed (fst (continuation "h1" u response s)))
  /\ exists out,
       performSearch (Mini.server Mini.six_pages Mini.six_site) (Mini.dom "h1")
                     Mini.lifo onLoad = Some out
       /\ locals out
          = after_batches (Mini.server Mini.six_pages Mini.six_site) (Mini.dom "h1")
                          "h1" Mini.six_pages Mini.lifo
                          (batch_count (List.length Mini.six_pages))
       /\ button_texts (trace out)
          = map (fun k => progress
                            (Run.processed
                               (after_batches
                                  (Mini.server Mini.six_pages Mini.six_site)
                                  (Mini.dom "h1") "h1" Mini.six_pages Mini.lifo (S k)))
                            (List.length Mini.six_pages))
                (seq 0 (batch_count (List.length Mini.six_pages)))
       /\ (forall k,
             Run.processed
               (after_batches (Mini.server Mini.six_pages Mini.six_site)
                              (Mini.dom "h1") "h1" Mini.six_pages Mini.lifo k)
             <= Run.processed
                  (after_batches (Mini.server Mini.six_pages Mini.six_site)
                                 (Mini.dom "h1") "h1" Mini.six_pages Mini.lifo (S k)))
       /\ (forallb eligible Mini.six_pages = true ->
           (forall k,
               Run.processed
                 (after_batches (Mini.server Mini.six_pages Mini.six_site)
                                (Mini.dom "h1") "h1" Mini.six_pages Mini.lifo k)
               = Z.of_nat (Nat.min (batchSize * k) (List.length Mini.six_pages)))
           /\ Run.processed (locals out) = Z.of_nat (List.length Mini.six_pages)).
Proof.
  assert (Hr : ready (Mini.server Mini.six_pages Mini.six_site) (Mini.dom "h1")
                     "h1" Mini.six_pages) by sample_ready.
  split; [exact Hr|]. split; [reflexivity|]. split; [reflexivity|].
  exact (progress_is_published_per_batch
           (Mini.server Mini.six_pages Mini.six_site) (Mini.dom "h1") Mini.lifo
           onLoad "h1" Mini.six_pages Hr eq_refl eq_refl).
Defined.

(** C3 as stated fails.  With six searched pages the progress is shown
    twice, as 83 and 100, not after each of the six pages.  With one
    searched page and one page that answered 404, the percentage is taken
    over both pages, and the counter does not end at the number of searched
    pages. *)
Lemma progress_is_not_per_searched_page :
  (exists out,
      performSearch (Mini.server Mini.six_pages Mini.six_site) (Mini.dom "h1")
                    Mini.fifo onLoad = Some out
      /\ button_texts (trace out) = [Some 83; Some 100]
      /\ per_page_progress (List.length (filter eligible Mini.six_pages))
         = [Some 17; Some 33; Some 50; Some 67; Some 83; Some 100])
  /\ (exists out,
        performSearch (Mini.server Mini.one_and_missing Mini.two_site) (Mini.dom "h1")
                      Mini.fifo onLoad = Some out
        /\ List.length (filter eligible Mini.one_and_missing) = 1%nat
        /\ List.length Mini.one_and_missing = 2%nat
        /\ Run.processed (locals out) <> 1
        /\ button_texts (trace out) = [progress (Run.processed (locals out)) 2]
        /\ button_texts (trace out) <> [Some 100]).
Proof.
  split; eexists; (split; [vm_compute; reflexivity|]).
  - split; reflexivity.
  - repeat split; try discriminate.
Qed.

(** In double precision the order of the operations matters: 145 pages
    out of 1000 give 14, where the exact quotient 14.5 would round to 15. *)
Example progress_uses_doubles :
  progress 145 1000 = Some 14 /\ progress 5 6 = Some 83 /\ progress 1 8 = Some 13.
Proof. repeat split. Qed.

(** *** Re-entrancy *)

(** C4, as the code has it.  While the session is searching, the search
    button and the input are rendered disabled, so a click does nothing,
    and the Enter-key listener does nothing either: both triggers call
    [performSearch] exactly when the session is not searching.
    [performSearch] itself never reads the session: a call that gets past
    its two early returns does the same whatever the session holds. *)
Theorem search_controls_are_disabled_while_searching
  (searchState : SearchState.t) (data_urls : option (list UrlData.t)) (view : View) :
  render searchState data_urls = Some view ->
  (input_disabled view = SearchState.isSearching searchState
   /\ button_disabled view = SearchState.isSearching searchState)
  /\ (on_click view = Ignored <-> SearchState.isSearching searchState = true)
  /\ (on_keypress "Enter" searchState = Ignored
      <-> SearchState.isSearching searchState = true)
  /\ (forall key, SearchState.isSearching searchState = true ->
                  on_keypress key searchState = Ignored)
  /\ (forall (browser : Browser) net dom sched selector urls other,
         ready net dom selector urls ->
         performSearch net dom sched searchState
         = performSearch net dom sched other).
Proof.
  intros Hview. unfold render in Hview.
  destruct data_urls as [[|u us]|]; try discriminate.
  injection Hview as <-. cbn [input_disabled button_disabled].
  unfold on_click, on_keypress. cbn [button_disabled String.eqb Ascii.eqb Bool.eqb andb].
  split; [split; reflexivity|].
  destruct (SearchState.isSearching searchState); cbn [negb].
  - split; [tauto|]. split; [tauto|]. split.
    + intros key _. now rewrite andb_false_r.
    + intros browser net dom sched selector urls other
             (value & data & Hin & Htrim & Hne & Hcs & Hurls & Hnil).
      unfold performSearch. rewrite Hin, Htrim.
      destruct (String.eqb_spec selector "") as [->|_]; [contradiction|].
      rewrite Hcs, Hurls. destruct urls; [contradiction|reflexivity].
  - split; [split; discriminate|]. split; [split; discriminate|]. split.
    + discriminate.
    + intros browser net dom sched selector urls other
             (value & data & Hin & Htrim & Hne & Hcs & Hurls & Hnil).
      unfold performSearch. rewrite Hin, Htrim.
      destruct (String.eqb_spec selector "") as [->|_]; [contradiction|].
      rewrite Hcs, Hurls. destruct urls; [contradiction|reflexivity].
Qed.

Lemma search_controls_are_disabled_while_searching_witness :
  render Mini.busy (Some Mini.two_pages)
  = Some {| input_value := "p"; input_disabled := true; button_disabled := true;
            button_label := "Searching..."; error_box := None;
            results_table := None |}
  /\ on_click {| input_value := "p"; input_disabled := true; button_disabled := true;
                button_label := "Searching..."; error_box := None;
                results_table := None |} = Ignored
  /\ on_keypress "Enter" Mini.busy = Ignored.
Proof.
  pose proof (search_controls_are_disabled_while_searching
                Mini.busy (Some Mini.two_pages) _ eq_refl) as (_ & Hclick & Hkey & _).
  split; [reflexivity|]. split.
  - apply Hclick. reflexivity.
  - apply Hkey. reflexivity.
Defined.

(** C4 as stated fails.  [performSearch] called while the session is
    searching is not refused: it fetches the crawl status and the pages and
    replaces the results. *)
Lemma performSearch_runs_while_searching :
  SearchState.isSearching Mini.busy = true
  /\ exists out,
       performSearch (Mini.server Mini.two_pages Mini.two_site) (Mini.dom "h1")
                     Mini.fifo Mini.busy = Some out
       /\ trace out
          = [GetCrawlStatus; PostFetchHtml "a"; PostFetchHtml "b";
             Settled "a"; Settled "b"; ButtonText (Some 100)]
       /\ map Result.url (SearchState.results (state out)) = ["a"; "b"]
       /\ ~ refused Mini.busy out.
Proof.
  split; [reflexivity|].
  eexists. split; [vm_compute; reflexivity|].
  split; [reflexivity|]. split; [reflexivity|].
  intros (H & _). discriminate H.
Qed.

(* ===================================================================== *)
(** ** Further properties of the plugin *)
(* ===================================================================== *)

(** *** The matcher *)

(** X1.  [countSelectorMatches] never throws, whatever the parser and the
    selector engine do.  It returns the number of matched elements when the
    markup parses and the selector is accepted, and 0 when either of them
    throws; the result is never negative. *)
Theorem countSelectorMatches_never_throws {browser : Browser}
  (markup selector : string) :
  exists n,
    countSelectorMatches markup selector = Normal n
    /\ 0 <= n
    /\ (forall doc elements,
          parseFromString markup = Normal doc ->
          querySelectorAll doc selector = Normal elements ->
          n = Z.of_nat (List.length elements))
    /\ (forall doc e,
          parseFromString markup = Normal doc ->
          querySelectorAll doc selector = Throw e -> n = 0)
    /\ (forall e, parseFromString markup = Throw e -> n = 0).
Proof.
  rewrite countSelectorMatches_value. eexists. split; [reflexivity|].
  destruct (parseFromString markup) as [doc|e0] eqn:Hp.
  - destruct (querySelectorAll doc selector) as [elements|e1] eqn:Hq.
    + split; [lia|]. split; [|split].
      * intros doc' elements' Hd He. injection Hd as <-.
        rewrite Hq in He. injection He as <-. reflexivity.
      * intros doc' e Hd He. injection Hd as <-. rewrite Hq in He.
        discriminate He.
      * intros e He. discriminate He.
    + split; [lia|]. split; [|split]; try reflexivity.
      intros doc' elements' Hd He. injection Hd as <-. rewrite Hq in He.
      discriminate He.
  - split; [lia|]. split; [|split]; try reflexivity.
    intros doc elements Hd. discriminate Hd.
Qed.

(** *** The early returns of performSearch *)

(** X2.  When the request for the crawl status (or the decoding of its
    answer) fails, [performSearch] rejects with that error.  Nothing else
    happens: no notification is shown, no page is fetched, and the session is
    exactly as before; in particular it is not marked as searching. *)
Theorem crawl_status_failure_rejects {browser : Browser} (net : Network) (dom : Dom)
  (sched : nat -> list nat) (searchState : SearchState.t) (value : string)
  (e : JS.Error) :
  selector_input dom = Some value ->
  all_white_space value = false ->
  crawl_status net = Throw e ->
  exists out,
    performSearch net dom sched searchState = Some out
    /\ returned out = Throw e
    /\ state out = searchState
    /\ running out = None
    /\ notifications out = []
    /\ trace out = [GetCrawlStatus].
Proof.
  intros Hin Hws Hcs. unfold performSearch. rewrite Hin.
  destruct (String.eqb_spec (JS.trim value) "") as [Ht|_].
  - apply trim_empty_iff in Ht. congruence.
  - rewrite Hcs. eexists. split; [reflexivity|]. repeat split.
Qed.

Lemma crawl_status_failure_rejects_witness :
  selector_input (Mini.dom "h1") = Some "h1"
  /\ all_white_space "h1" = false
  /\ exists out,
       performSearch
         {| crawl_status := Throw {| JS.message := Str "Failed to fetch" |};
            fetch_html := Mini.lookup Mini.two_site |}
         (Mini.dom "h1") Mini.fifo Mini.busy = Some out
       /\ returned out = Throw {| JS.message := Str "Failed to fetch" |}
       /\ state out = Mini.busy
       /\ running out = None
       /\ notifications out = []
       /\ trace out = [GetCrawlStatus].
Proof.
  split; [reflexivity|]. split; [reflexivity|].
  exact (crawl_status_failure_rejects
           {| crawl_status := Throw {| JS.message := Str "Failed to fetch" |};
              fetch_html := Mini.lookup Mini.two_site |}
           (Mini.dom "h1") Mini.fifo Mini.busy "h1"
           {| JS.message := Str "Failed to fetch" |} eq_refl eq_refl eq_refl).
Defined.

(** X3.  When the crawl status lists no page ([urls] missing or empty),
    [performSearch] shows the error notification "No crawled pages
    available" and returns: the crawl status is the only request sent, no
    page is fetched, the session is exactly as before and no sweep
    starts. *)
Theorem no_crawled_pages_is_reported {browser : Browser} (net : Network) (dom : Dom)
  (sched : nat -> list nat) (searchState : SearchState.t) (value : string)
  (data : CrawlData) :
  selector_input dom = Some value ->
  all_white_space value = false ->
  crawl_status net = Normal data ->
  has_pages (urls data) = false ->
  exists out,
    performSearch net dom sched searchState = Some out
    /\ returned out = Normal tt
    /\ state out = searchState
    /\ running out = None
    /\ notifications out = [("No crawled pages available", KError)]
    /\ trace out = [GetCrawlStatus]
    /\ fetched (trace out) = [].
Proof.
  intros Hin Hws Hcs Hnone. unfold performSearch. rewrite Hin.
  destruct (String.eqb_spec (JS.trim value) "") as [Ht|_].
  - apply trim_empty_iff in Ht. congruence.
  - rewrite Hcs. unfold has_pages in Hnone.
    destruct (urls data) as [[|u us]|]; try discriminate Hnone;
      (eexists; split; [reflexivity|]; repeat split).
Qed.

Lemma no_crawled_pages_is_reported_witness :
  selector_input (Mini.dom "h1") = Some "h1"
  /\ all_white_space "h1" = false
  /\ crawl_status (Mini.server [] Mini.two_site) = Normal {| urls := Some [] |}
  /\ has_pages (urls {| urls := Some [] |}) = false
  /\ exists out,
       performSearch (Mini.server [] Mini.two_site) (Mini.dom "h1") Mini.fifo
                     Mini.busy = Some out
       /\ returned out = Normal tt
       /\ state out = Mini.busy
       /\ running out = None
       /\ notifications out = [("No crawled pages available", KError)]
       /\ trace out = [GetCrawlStatus]
       /\ fetched (trace out) = [].
Proof.
  split; [reflexivity|]. split; [reflexivity|].
  split; [reflexivity|]. split; [reflexivity|].
  exact (no_crawled_pages_is_reported
           (Mini.server [] Mini.two_site) (Mini.dom "h1") Mini.fifo Mini.busy "h1"
           {| urls := Some [] |} eq_refl eq_refl eq_refl eq_refl).
Defined.

(** *** Every search that starts, completes *)

(** X4.  Let the container be set and let every request settle, fulfilled
    or rejected.  Then a search that gets past its early returns cannot
    fail: no page callback rejects, so [Promise.all] never rejects and the
    [catch] branch of [performSearch] is not entered.  The loop comes to its
    end after as many iterations as there are slices of five pages; the
    session is then not searching and holds the trimmed selector and no
    error, and the returned promise is fulfilled.  Exactly one notification
    is shown: the success notification with the number of result pages when
    there is a result, the informational one otherwise. *)
Theorem started_search_completes {browser : Browser} (net : Network) (dom : Dom)
  (sched : nat -> list nat) (searchState : SearchState.t) (selector : string)
  (data_urls : list UrlData.t) :
  ready net dom selector data_urls ->
  container dom = true ->
  (forall batch picks s,
      snd (await_Promise_all net selector batch picks s) = Normal tt)
  /\ for_loop net dom selector data_urls sched (S (List.length data_urls)) 0 Run.init
     = Some (after_batches net dom selector data_urls sched
                           (batch_count (List.length data_urls)), Normal tt)
  /\ exists out,
       performSearch net dom sched searchState = Some out
       /\ returned out = Normal tt
       /\ SearchState.isSearching (state out) = false
       /\ SearchState.error (state out) = Null
       /\ SearchState.selector (state out) = selector
       /\ (SearchState.results (state out) = [] ->
           notifications out
           = [ ("Selector " ++ JS.dquote ++ selector ++ JS.dquote
                  ++ " not found on any pages", KInfo) ]%string)
       /\ (SearchState.results (state out) <> [] ->
           notifications out
           = [ ("Found " ++ JS.dquote ++ selector ++ JS.dquote ++ " on "
                  ++ JS.string_of_nat (List.length (SearchState.results (state out)))
                  ++ " page(s)", KSuccess) ]%string).
Proof.
  intros Hready _. split; [|split; [apply for_loop_total|]].
  { intros batch picks s. now rewrite await_Promise_all_run. }
  destruct (performSearch_run net dom sched selector data_urls Hready searchState)
    as (out & Hout & Hstate & _ & _ & _ & Hret & Hnote).
  exists out. split; [exact Hout|]. split; [exact Hret|].
  rewrite Hstate, Hnote. cbn [completed SearchState.isSearching SearchState.error
                                SearchState.selector SearchState.results].
  split; [reflexivity|]. split; [reflexivity|]. split; [reflexivity|]. split.
  - intros ->. reflexivity.
  - intros Hne. destruct (sort_results _); [contradiction|reflexivity].
Qed.

Lemma started_search_completes_witness :
  ready (Mini.server Mini.three_pages Mini.three_site) (Mini.dom "h1") "h1"
        Mini.three_pages
  /\ container (Mini.dom "h1") = true
  /\ exists out,
       performSearch (Mini.server Mini.three_pages Mini.three_site) (Mini.dom "h1")
                     Mini.lifo Mini.busy = Some out
       /\ returned out = Normal tt
       /\ SearchState.isSearching (state out) = false
       /\ SearchState.error (state out) = Null
       /\ notifications out
          = [ ("Found " ++ JS.dquote ++ "h1" ++ JS.dquote ++ " on 2 page(s)",
               KSuccess) ]%string.
Proof.
  assert (Hr : ready (Mini.server Mini.three_pages Mini.three_site) (Mini.dom "h1")
                     "h1" Mini.three_pages) by sample_ready.
  split; [exact Hr|]. split; [reflexivity|].
  destruct (started_search_completes
              (Mini.server Mini.three_pages Mini.three_site) (Mini.dom "h1")
              Mini.lifo Mini.busy "h1" Mini.three_pages Hr eq_refl)
    as (_ & _ & out & Hout & Hret & Hs & He & _ & _ & _).
  exists out. split; [exact Hout|]. split; [exact Hret|].
  split; [exact Hs|]. split; [exact He|].
  vm_compute in Hout. injection Hout as <-. reflexivity.
Defined.

(** *** What the results are *)

(** X5.  Every reported result has at least one match, and its count is
    the number of elements that the selector matches in the markup served
    for its URL; its status code is 200.  Conversely, a searched page whose
    markup has no match is not reported. *)
Theorem results_report_actual_matches {browser : Browser} (net : Network) (dom : Dom)
  (sched : nat -> list nat) (searchState : SearchState.t) (selector : string)
  (data_urls : list UrlData.t) :
  ready net dom selector data_urls ->
  exists out,
    performSearch net dom sched searchState = Some out
    /\ (forall r, In r (SearchState.results (state out)) ->
          1 <= Result.count r
          /\ Result.status_code r = 200
          /\ exists markup doc elements,
               fetch_html net (Result.url r)
               = Normal {| success := true; html := Str markup |}
               /\ parseFromString markup = Normal doc
               /\ querySelectorAll doc selector = Normal elements
               /\ Result.count r = Z.of_nat (List.length elements))
    /\ (forall u htmlData,
          fetch_html net (UrlData.url u) = Normal htmlData ->
          countSelectorMatches (JS.to_string (html htmlData)) selector = Normal 0 ->
          forall r, In r (SearchState.results (state out)) ->
                    Result.url r <> UrlData.url u).
Proof.
  intros Hready.
  destruct (performSearch_run net dom sched selector data_urls Hready searchState)
    as (out & Hout & Hstate & _).
  exists out. split; [exact Hout|].
  rewrite Hstate. cbn [completed SearchState.results]. split.
  - intros r Hr. apply results_origin in Hr as (u & _ & Hr).
    apply page_matches_shape in Hr as (He & Hshape & Hpos & d & Hd & Hs & Ht & Hc).
    pose proof (f_equal Result.url Hshape) as Hurl.
    pose proof (f_equal Result.status_code Hshape) as Hstatus.
    cbn [Result.url Result.status_code] in Hurl, Hstatus.
    split; [lia|]. split.
    { rewrite Hstatus. unfold eligible in He.
      apply andb_true_iff in He as [He _]. now apply Z.eqb_eq. }
    destruct d as [ok markup]. cbn [success html] in *. subst ok.
    destruct markup as [| |markup]; try discriminate Ht.
    cbn [JS.to_string] in Hc. rewrite countSelectorMatches_value in Hc.
    injection Hc as Hc.
    destruct (parseFromString markup) as [doc|] eqn:Hp; [|lia].
    destruct (querySelectorAll doc selector) as [elements|] eqn:Hq; [|lia].
    exists markup, doc, elements.
    rewrite Hurl, Hd. split; [reflexivity|]. split; [exact Hp|].
    split; [exact Hq|]. lia.
  - intros u d Hd H0 r Hr Heq. apply results_origin in Hr as (v & _ & Hr).
    apply page_matches_shape in Hr as (_ & Hshape & Hpos & d' & Hd' & _ & _ & Hc).
    pose proof (f_equal Result.url Hshape) as Hurl. cbn [Result.url] in Hurl.
    rewrite <- Hurl, Heq, Hd in Hd'. injection Hd' as <-.
    rewrite H0 in Hc. injection Hc as Hc. lia.
Qed.

Lemma results_report_actual_matches_witness :
  ready (Mini.server Mini.three_pages Mini.three_site) (Mini.dom "h1") "h1"
        Mini.three_pages
  /\ exists out,
       performSearch (Mini.server Mini.three_pages Mini.three_site) (Mini.dom "h1")
                     Mini.fifo onLoad = Some out
       /\ (forall r, In r (SearchState.results (state out)) ->
             1 <= Result.count r /\ Result.status_code r = 200)
       /\ (forall r, In r (SearchState.results (state out)) ->
             Result.url r <> UrlData.url (Mini.page "b")).
Proof.
  assert (Hr : ready (Mini.server Mini.three_pages Mini.three_site) (Mini.dom "h1")
                     "h1" Mini.three_pages) by sample_ready.
  split; [exact Hr|].
  destruct (results_report_actual_matches
              (Mini.server Mini.three_pages Mini.three_site) (Mini.dom "h1")
              Mini.fifo onLoad "h1" Mini.three_pages Hr)
    as (out & Hout & Hshape & Hzero).
  exists out. split; [exact Hout|]. split.
  - intros r Hin. destruct (Hshape r Hin) as (H1 & H2 & _). now split.
  - apply (Hzero (Mini.page "b")
                 {| success := true; html := Str (Mini.headings 0) |});
      reflexivity.
Defined.

Lemma page_matches_at_most_one {browser : Browser} (net : Network) (selector : string)
  (u : UrlData.t) :
  (List.length (page_matches net selector u) <= 1)%nat.
Proof.
  unfold page_matches, matches_of.
  destruct (eligible u); [|cbn; lia].
  destruct (fetch_html net (UrlData.url u)) as [d|]; [|cbn; lia].
  destruct (success d && JS.truthy (html d)); [|cbn; lia].
  destruct (countSelectorMatches _ _) as [n|]; [|cbn; lia].
  destruct (n >? 0); cbn; lia.
Qed.

Lemma contributions_bounded {browser : Browser} (net : Network) (selector : string)
  (l : list UrlData.t) :
  (List.length (flat_map (page_matches net selector) l)
   <= List.length (filter eligible l))%nat.
Proof.
  induction l as [|u l IH]; [cbn; lia|].
  cbn [flat_map filter]. rewrite length_app.
  pose proof (page_matches_at_most_one net selector u) as H1.
  unfold page_matches in *. destruct (eligible u); cbn [List.length] in *; lia.
Qed.

(** X6.  Sorting neither loses nor invents results: whatever the order in
    which the fetches complete, the reported results are exactly the
    results that the inventory pages contribute, each page at most one.
    Hence there are never more results than searched pages. *)
Theorem results_are_the_page_contributions {browser : Browser} (net : Network)
  (dom : Dom) (sched : nat -> list nat) (searchState : SearchState.t)
  (selector : string) (data_urls : list UrlData.t) :
  ready net dom selector data_urls ->
  exists out,
    performSearch net dom sched searchState = Some out
    /\ Permutation (SearchState.results (state out))
                   (flat_map (page_matches net selector) data_urls)
    /\ (forall u, (List.length (page_matches net selector u) <= 1)%nat)
    /\ (List.length (SearchState.results (state out))
        <= List.length (filter eligible data_urls))%nat.
Proof.
  intros Hready.
  destruct (performSearch_run net dom sched selector data_urls Hready searchState)
    as (out & Hout & Hstate & _).
  exists out. split; [exact Hout|].
  rewrite Hstate. cbn [completed SearchState.results].
  assert (HP : Permutation
                 (sort_results
                    (Run.results (final_locals net dom selector data_urls sched)))
                 (flat_map (page_matches net selector) data_urls)).
  { etransitivity; [symmetry; apply sort_results_perm|apply final_results_perm]. }
  split; [exact HP|]. split; [apply page_matches_at_most_one|].
  rewrite (Permutation_length HP). apply contributions_bounded.
Qed.

Lemma results_are_the_page_contributions_witness :
  ready (Mini.server Mini.twelve_pages Mini.twelve_site) (Mini.dom "h1") "h1"
        Mini.twelve_pages
  /\ exists out,
       performSearch (Mini.server Mini.twelve_pages Mini.twelve_site) (Mini.dom "h1")
                     Mini.lifo onLoad = Some out
       /\ Permutation (SearchState.results (state out))
                      (flat_map (page_matches
                                   (Mini.server Mini.twelve_pages Mini.twelve_site)
                                   "h1")
                                Mini.twelve_pages)
       /\ (forall u, (List.length
                        (page_matches (Mini.server Mini.twelve_pages Mini.twelve_site)
                                      "h1" u) <= 1)%nat)
       /\ (List.length (SearchState.results (state out))
           <= List.length (filter eligible Mini.twelve_pages))%nat.
Proof.
  assert (Hr : ready (Mini.server Mini.twelve_pages Mini.twelve_site) (Mini.dom "h1")
                     "h1" Mini.twelve_pages) by sample_ready.
  split; [exact Hr|].
  exact (results_are_the_page_contributions
           (Mini.server Mini.twelve_pages Mini.twelve_site) (Mini.dom "h1") Mini.lifo
           onLoad "h1" Mini.twelve_pages Hr).
Defined.

(** *** Requests and callbacks *)

Lemma fetched_app (l1 l2 : list Event) : fetched (l1 ++ l2) = fetched l1 ++ fetched l2.
Proof. apply flat_map_app. Qed.

Lemma settled_app (l1 l2 : list Event) : settled (l1 ++ l2) = settled l1 ++ settled l2.
Proof. apply flat_map_app. Qed.

Lemma fetched_starts (l : list UrlData.t) :
  fetched (map start_event l) = map UrlData.url (filter eligible l).
Proof.
  induction l as [|u l IH]; [reflexivity|]. cbn [map filter].
  unfold start_event at 1. destruct (eligible u); cbn [fetched flat_map app map];
    fold (fetched (map start_event l)); now rewrite IH.
Qed.

Lemma fetched_settles (l : list UrlData.t) : fetched (map settle_event l) = [].
Proof. induction l as [|u l IH]; [reflexivity|exact IH]. Qed.

Lemma settled_starts (l : list UrlData.t) :
  settled (map start_event l)
  = map UrlData.url (filter (fun u => negb (eligible u)) l).
Proof.
  induction l as [|u l IH]; [reflexivity|]. cbn [map filter].
  unfold start_event at 1.
  destruct (eligible u); cbn [negb settled flat_map app map];
    fold (settled (map start_event l)); now rewrite IH.
Qed.

Lemma settled_settles (l : list UrlData.t) :
  settled (map settle_event l) = map UrlData.url l.
Proof.
  induction l as [|u l IH]; [reflexivity|].
  cbn [map settled flat_map settle_event app].
  fold (settled (map settle_event l)). now rewrite IH.
Qed.

Lemma filter_split_perm {A} (f : A -> bool) (l : list A) :
  Permutation (filter (fun x => negb (f x)) l ++ filter f l) l.
Proof.
  induction l as [|x l IH]; [constructor|]. cbn [filter].
  destruct (f x); cbn [negb app].
  - rewrite <- Permutation_middle. now constructor.
  - now constructor.
Qed.

Section Requests.

Context {browser : Browser}.
Variable net : Network.
Variable dom : Dom.
Variable selector : string.
Variable data_urls : list UrlData.t.
Variable sched : nat -> list nat.

Local Abbreviation events := (batch_events net dom selector data_urls sched).

Lemma progress_part_silent (p : option Z) :
  fetched (if container dom && search_btn dom then [ButtonText p] else []) = []
  /\ settled (if container dom && search_btn dom then [ButtonText p] else []) = [].
Proof. destruct (container dom && search_btn dom); split; reflexivity. Qed.

Lemma fetched_batch (k : nat) :
  fetched (events k) = map UrlData.url (filter eligible (batch data_urls k)).
Proof.
  unfold batch_events.
  rewrite !fetched_app, fetched_starts, fetched_settles.
  rewrite (proj1 (progress_part_silent _)). now rewrite !app_nil_r.
Qed.

Lemma settled_batch (k : nat) :
  Permutation (settled (events k)) (map UrlData.url (batch data_urls k)).
Proof.
  unfold batch_events.
  rewrite !settled_app, settled_starts, settled_settles.
  rewrite (proj2 (progress_part_silent _)), app_nil_r, <- map_app.
  apply Permutation_map.
  etransitivity; [|apply (filter_split_perm eligible)].
  apply Permutation_app_head. symmetry. apply completion_order_perm.
Qed.

(** Fetches are issued in inventory order, one per searched page. *)
Lemma fetched_batches (n : nat) :
  fetched (flat_map events (seq 0 n))
  = map UrlData.url (filter eligible (firstn (batchSize * n) data_urls)).
Proof.
  induction n as [|n IH]; [reflexivity|].
  rewrite seq_S, flat_map_app, fetched_app, IH, firstn_next_batch, filter_app,
    map_app.
  cbn [flat_map Nat.add]. rewrite app_nil_r, fetched_batch. reflexivity.
Qed.

Lemma settled_batches (n : nat) :
  Permutation (settled (flat_map events (seq 0 n)))
              (map UrlData.url (firstn (batchSize * n) data_urls)).
Proof.
  induction n as [|n IH]; [reflexivity|].
  rewrite seq_S, flat_map_app, settled_app, firstn_next_batch, map_app.
  cbn [flat_map Nat.add]. rewrite app_nil_r.
  apply Permutation_app; [exact IH|apply settled_batch].
Qed.

Lemma no_crawl_request_in_batches (ks : list nat) :
  crawl_requests (flat_map events ks) = 0%nat.
Proof.
  unfold crawl_requests.
  induction ks as [|k ks IH]; [reflexivity|].
  cbn [flat_map]. rewrite filter_app, length_app, IH.
  unfold batch_events. rewrite !filter_app, !length_app.
  assert (H1 : forall l, List.length
                 (filter (fun e => match e with GetCrawlStatus => true | _ => false end)
                         (map start_event l)) = 0%nat).
  { induction l as [|u l IHl]; [reflexivity|]. cbn [map filter].
    unfold start_event at 1. destruct (eligible u); exact IHl. }
  assert (H2 : forall l, List.length
                 (filter (fun e => match e with GetCrawlStatus => true | _ => false end)
                         (map settle_event l)) = 0%nat).
  { induction l as [|u l IHl]; [reflexivity|exact IHl]. }
  rewrite H1, H2. destruct (container dom && search_btn dom); reflexivity.
Qed.

(** The progress texts do not depend on the schedule or on the answers of
    the server. *)
Lemma button_texts_trace (n : nat) :
  button_texts (flat_map events (seq 0 n))
  = if container dom && search_btn dom
    then map (fun k => progress
                         (count_processed (firstn (batchSize * S k) data_urls))
                         (List.length data_urls)) (seq 0 n)
    else [].
Proof.
  induction n as [|n IH].
  - destruct (container dom && search_btn dom); reflexivity.
  - rewrite seq_S, flat_map_app, button_texts_app, IH.
    cbn [flat_map Nat.add]. rewrite app_nil_r. unfold batch_events.
    rewrite !button_texts_app, button_texts_starts, button_texts_settles.
    rewrite after_batches_processed.
    destruct (container dom && search_btn dom); [|reflexivity].
    rewrite map_app. reflexivity.
Qed.

End Requests.

(** X7.  A search asks for the crawl status exactly once and then issues
    exactly one fetch for each inventory page that passes the guards, in
    inventory order; it issues no other fetch.  Every inventory page's
    callback returns exactly once. *)
Theorem one_fetch_per_searched_page {browser : Browser} (net : Network) (dom : Dom)
  (sched : nat -> list nat) (searchState : SearchState.t) (selector : string)
  (data_urls : list UrlData.t) :
  ready net dom selector data_urls ->
  exists out,
    performSearch net dom sched searchState = Some out
    /\ crawl_requests (trace out) = 1%nat
    /\ fetched (trace out) = map UrlData.url (filter eligible data_urls)
    /\ Permutation (settled (trace out)) (map UrlData.url data_urls).
Proof.
  intros Hready.
  destruct (performSearch_run net dom sched selector data_urls Hready searchState)
    as (out & Hout & _ & _ & _ & Htrace & _).
  exists out. split; [exact Hout|]. rewrite Htrace. unfold final_locals.
  rewrite after_batches_trace. split; [|split].
  - unfold crawl_requests. cbn [filter List.length]. f_equal.
    apply no_crawl_request_in_batches.
  - cbn [fetched flat_map app]. fold (fetched
      (flat_map (batch_events net dom selector data_urls sched)
                (seq 0 (batch_count (List.length data_urls))))).
    now rewrite fetched_batches, covered.
  - cbn [settled flat_map app]. fold (settled
      (flat_map (batch_events net dom selector data_urls sched)
                (seq 0 (batch_count (List.length data_urls))))).
    now rewrite settled_batches, covered.
Qed.

Lemma one_fetch_per_searched_page_witness :
  ready (Mini.server Mini.mixed_pages Mini.six_site) (Mini.dom "h1") "h1"
        Mini.mixed_pages
  /\ exists out,
       performSearch (Mini.server Mini.mixed_pages Mini.six_site) (Mini.dom "h1")
                     Mini.lifo onLoad = Some out
       /\ crawl_requests (trace out) = 1%nat
       /\ fetched (trace out) = map UrlData.url (filter eligible Mini.mixed_pages)
       /\ Permutation (settled (trace out)) (map UrlData.url Mini.mixed_pages).
Proof.
  assert (Hr : ready (Mini.server Mini.mixed_pages Mini.six_site) (Mini.dom "h1")
                     "h1" Mini.mixed_pages) by sample_ready.
  split; [exact Hr|].
  exact (one_fetch_per_searched_page
           (Mini.server Mini.mixed_pages Mini.six_site) (Mini.dom "h1") Mini.lifo
           onLoad "h1" Mini.mixed_pages Hr).
Defined.

Example fetches_of_the_mixed_inventory :
  exists out,
    performSearch (Mini.server Mini.mixed_pages Mini.six_site) (Mini.dom "h1")
                  Mini.lifo onLoad = Some out
    /\ fetched (trace out) = ["p1"; "p3"; "p4"; "p5"; "p6"]
    /\ settled (trace out) = ["p2"; "p5"; "p4"; "p3"; "p1"; "p6"].
Proof. eexists. split; [vm_compute; reflexivity|]. split; reflexivity. Qed.

(** *** The order of completion does not show *)

Lemma counts_sorted (l : list Result.t) :
  StronglySorted count_desc l -> StronglySorted Z.ge (map Result.count l).
Proof.
  induction 1 as [|r l Hl IH Hr]; cbn [map]; constructor; [exact IH|].
  apply Forall_map. eapply Forall_impl; [|exact Hr]. intros a Ha. exact Ha.
Qed.

Lemma sorted_perm_unique (l1 l2 : list Z) :
  StronglySorted Z.ge l1 -> StronglySorted Z.ge l2 -> Permutation l1 l2 -> l1 = l2.
Proof.
  revert l2. induction l1 as [|x l1 IH]; intros l2 H1 H2 HP.
  - apply Permutation_nil in HP. now subst.
  - destruct l2 as [|y l2]; [apply Permutation_sym, Permutation_nil in HP; discriminate|].
    apply StronglySorted_inv in H1 as [H1 Hx].
    apply StronglySorted_inv in H2 as [H2 Hy].
    assert (x = y) as <-.
    { assert (Hyx : In y (x :: l1))
        by (eapply Permutation_in; [symmetry; exact HP|now left]).
      assert (Hxy : In x (y :: l2))
        by (eapply Permutation_in; [exact HP|now left]).
      destruct Hyx as [->|Hyx]; [reflexivity|].
      destruct Hxy as [->|Hxy]; [reflexivity|].
      rewrite Forall_forall in Hx, Hy.
      specialize (Hx y Hyx). specialize (Hy x Hxy). lia. }
    f_equal. apply IH; [assumption|assumption|].
    eapply Permutation_cons_inv, HP.
Qed.

(** X8.  What a search reports does not depend on the order in which the
    fetches complete, nor on the previous content of the session: two runs
    over the same inventory and server report the same results up to the
    order of results with equal counts, the same sequence of counts and the
    same total, show the same notification and the same progress texts,
    issue the same fetches in the same order and end with the same value of
    [processed]. *)
Theorem outcome_is_independent_of_completion_order {browser : Browser}
  (net : Network) (dom : Dom) (sched1 sched2 : nat -> list nat)
  (searchState1 searchState2 : SearchState.t) (selector : string)
  (data_urls : list UrlData.t) :
  ready net dom selector data_urls ->
  exists out1 out2,
    performSearch net dom sched1 searchState1 = Some out1
    /\ performSearch net dom sched2 searchState2 = Some out2
    /\ Permutation (SearchState.results (state out1))
                   (SearchState.results (state out2))
    /\ map Result.count (SearchState.results (state out1))
       = map Result.count (SearchState.results (state out2))
    /\ totalMatches (SearchState.results (state out1))
       = totalMatches (SearchState.results (state out2))
    /\ notifications out1 = notifications out2
    /\ button_texts (trace out1) = button_texts (trace out2)
    /\ fetched (trace out1) = fetched (trace out2)
    /\ Run.processed (locals out1) = Run.processed (locals out2).
Proof.
  intros Hready.
  destruct (performSearch_run net dom sched1 selector data_urls Hready searchState1)
    as (out1 & Hout1 & Hstate1 & _ & Hloc1 & Htrace1 & _ & Hnote1).
  destruct (performSearch_run net dom sched2 selector data_urls Hready searchState2)
    as (out2 & Hout2 & Hstate2 & _ & Hloc2 & Htrace2 & _ & Hnote2).
  exists out1, out2. split; [exact Hout1|]. split; [exact Hout2|].
  rewrite Hstate1, Hstate2, Hnote1, Hnote2, Hloc1, Hloc2, Htrace1, Htrace2.
  cbn [completed SearchState.results].
  set (r1 := sort_results (Run.results (final_locals net dom selector data_urls sched1))).
  set (r2 := sort_results (Run.results (final_locals net dom selector data_urls sched2))).
  assert (HP : Permutation r1 r2).
  { unfold r1, r2.
    etransitivity; [symmetry; apply sort_results_perm|].
    etransitivity; [apply final_results_perm|].
    etransitivity; [symmetry; apply final_results_perm|apply sort_results_perm]. }
  assert (Hcounts : map Result.count r1 = map Result.count r2).
  { apply sorted_perm_unique.
    - apply counts_sorted, sort_results_sorted.
    - apply counts_sorted, sort_results_sorted.
    - now apply Permutation_map. }
  split; [exact HP|]. split; [exact Hcounts|]. split.
  { unfold totalMatches. rewrite !fold_left_counts.
    f_equal. now apply sum_counts_perm. }
  split.
  { pose proof (Permutation_length HP) as Hlen.
    destruct r1 as [|a r1'], r2 as [|b r2']; try discriminate Hlen; [reflexivity|].
    now rewrite Hlen. }
  unfold final_locals. rewrite !after_batches_trace, !after_batches_processed.
  split; [|split; [|reflexivity]].
  - cbn [button_texts flat_map app].
    fold (button_texts (flat_map (batch_events net dom selector data_urls sched1)
                                 (seq 0 (batch_count (List.length data_urls))))).
    fold (button_texts (flat_map (batch_events net dom selector data_urls sched2)
                                 (seq 0 (batch_count (List.length data_urls))))).
    now rewrite !button_texts_trace.
  - cbn [fetched flat_map app].
    fold (fetched (flat_map (batch_events net dom selector data_urls sched1)
                            (seq 0 (batch_count (List.length data_urls))))).
    fold (fetched (flat_map (batch_events net dom selector data_urls sched2)
                            (seq 0 (batch_count (List.length data_urls))))).
    now rewrite !fetched_batches.
Qed.

Lemma outcome_is_independent_of_completion_order_witness :
  ready (Mini.server Mini.six_pages Mini.six_site) (Mini.dom "h1") "h1" Mini.six_pages
  /\ exists out1 out2,
       performSearch (Mini.server Mini.six_pages Mini.six_site) (Mini.dom "h1")
                     Mini.fifo onLoad = Some out1
       /\ performSearch (Mini.server Mini.six_pages Mini.six_site) (Mini.dom "h1")
                        Mini.lifo Mini.busy = Some out2
       /\ Permutation (SearchState.results (state out1))
                      (SearchState.results (state out2))
       /\ map Result.count (SearchState.results (state out1))
          = map Result.count (SearchState.results (state out2))
       /\ totalMatches (SearchState.results (state out1))
          = totalMatches (SearchState.results (state out2))
       /\ notifications out1 = notifications out2
       /\ button_texts (trace out1) = button_texts (trace out2)
       /\ fetched (trace out1) = fetched (trace out2)
       /\ Run.processed (locals out1) = Run.processed (locals out2).
Proof.
  assert (Hr : ready (Mini.server Mini.six_pages Mini.six_site) (Mini.dom "h1")
                     "h1" Mini.six_pages) by sample_ready.
  split; [exact Hr|].
  exact (outcome_is_independent_of_completion_order
           (Mini.server Mini.six_pages Mini.six_site) (Mini.dom "h1")
           Mini.fifo Mini.lifo onLoad Mini.busy "h1" Mini.six_pages Hr).
Defined.

(** *** The counter *)

(** X9.  When the search is over, [processed] is the number of pages that
    passed the guards plus twice the number of pages that did not: a page
    that fails a guard is counted by the increment before its [return] and
    again by the one in [finally].  So the counter equals the number of
    inventory pages exactly when every page passes the guards, and exceeds
    it otherwise. *)
Theorem skipped_pages_count_twice {browser : Browser} (net : Network) (dom : Dom)
  (sched : nat -> list nat) (searchState : SearchState.t) (selector : string)
  (data_urls : list UrlData.t) :
  ready net dom selector data_urls ->
  exists out,
    performSearch net dom sched searchState = Some out
    /\ Run.processed (locals out)
       = Z.of_nat (List.length (filter eligible data_urls))
         + 2 * Z.of_nat (List.length (filter (fun u => negb (eligible u)) data_urls))
    /\ (Run.processed (locals out) = Z.of_nat (List.length data_urls)
        <-> forallb eligible data_urls = true)
    /\ Z.of_nat (List.length data_urls) <= Run.processed (locals out).
Proof.
  intros Hready.
  destruct (performSearch_run net dom sched selector data_urls Hready searchState)
    as (out & Hout & _ & _ & Hloc & _).
  exists out. split; [exact Hout|].
  rewrite Hloc, final_processed. fold (count_processed data_urls).
  split; [reflexivity|]. split; [|apply count_processed_at_least].
  split.
  - intros Heq. unfold count_processed in Heq.
    pose proof (Permutation_length (filter_split_perm eligible data_urls)) as Hlen.
    rewrite length_app in Hlen.
    assert (Hz : List.length (filter (fun u => negb (eligible u)) data_urls) = 0%nat)
      by lia.
    apply forallb_forall. intros u Hu.
    destruct (eligible u) eqn:He; [reflexivity|].
    assert (Hin : In u (filter (fun u => negb (eligible u)) data_urls)).
    { apply filter_In. split; [exact Hu|]. now rewrite He. }
    destruct (filter (fun u => negb (eligible u)) data_urls);
      [destruct Hin|discriminate Hz].
  - apply count_processed_eligible.
Qed.

Lemma skipped_pages_count_twice_witness :
  ready (Mini.server Mini.mixed_pages Mini.six_site) (Mini.dom "h1") "h1"
        Mini.mixed_pages
  /\ exists out,
       performSearch (Mini.server Mini.mixed_pages Mini.six_site) (Mini.dom "h1")
                     Mini.fifo onLoad = Some out
       /\ Run.processed (locals out) = 7
       /\ List.length Mini.mixed_pages = 6%nat.
Proof.
  assert (Hr : ready (Mini.server Mini.mixed_pages Mini.six_site) (Mini.dom "h1")
                     "h1" Mini.mixed_pages) by sample_ready.
  split; [exact Hr|].
  destruct (skipped_pages_count_twice
              (Mini.server Mini.mixed_pages Mini.six_site) (Mini.dom "h1")
              Mini.fifo onLoad "h1" Mini.mixed_pages Hr)
    as (out & Hout & Hp & _).
  exists out. split; [exact Hout|]. split; [exact Hp|reflexivity].
Defined.

(** *** The selector *)

Lemma trimStart_first (s : string) : not_white_space (first_char (JS.trimStart s)).
Proof.
  induction s as [|c s IH]; cbn [JS.trimStart]; [exact I|].
  destruct (JS.is_white_space c) eqn:Hc; [exact IH|]. exact Hc.
Qed.

Lemma trimEnd_last (s : string) : not_white_space (last_char (JS.trimEnd s)).
Proof.
  induction s as [|c s IH]; cbn [JS.trimEnd]; [exact I|].
  destruct (JS.trimEnd s) as [|c' s'] eqn:Hs.
  - cbn [String.eqb]. rewrite andb_true_r.
    destruct (JS.is_white_space c) eqn:Hc; [exact I|exact Hc].
  - cbn [String.eqb]. rewrite andb_false_r. exact IH.
Qed.

Lemma trimEnd_first (s : string) :
  not_white_space (first_char s) -> first_char (JS.trimEnd s) = first_char s.
Proof.
  destruct s as [|c s]; [reflexivity|]. cbn [first_char not_white_space JS.trimEnd].
  intros ->. reflexivity.
Qed.

Lemma trimEnd_idempotent (s : string) : JS.trimEnd (JS.trimEnd s) = JS.trimEnd s.
Proof.
  induction s as [|c s IH]; [reflexivity|]. cbn [JS.trimEnd].
  destruct (JS.is_white_space c && (JS.trimEnd s =? "")%string) eqn:Hc;
    [reflexivity|].
  cbn [JS.trimEnd]. rewrite IH, Hc. reflexivity.
Qed.

Lemma trimStart_fixed (s : string) :
  not_white_space (first_char s) -> JS.trimStart s = s.
Proof.
  destruct s as [|c s]; [reflexivity|]. cbn [first_char not_white_space JS.trimStart].
  intros ->. reflexivity.
Qed.

Lemma trim_idempotent (s : string) : JS.trim (JS.trim s) = JS.trim s.
Proof.
  unfold JS.trim. rewrite (trimStart_fixed (JS.trimEnd _)).
  - apply trimEnd_idempotent.
  - rewrite trimEnd_first; apply trimStart_first.
Qed.

(** X10.  The selector that a search uses and stores in the session is
    the trimmed input: it neither starts nor ends with white space, and
    trimming it again changes nothing.  Hence a search started from an
    input that holds the stored selector gets past the same checks and uses
    the same selector. *)
Theorem stored_selector_is_trimmed {browser : Browser} (net : Network) (dom : Dom)
  (sched : nat -> list nat) (searchState : SearchState.t) (selector : string)
  (data_urls : list UrlData.t) :
  ready net dom selector data_urls ->
  JS.trim selector = selector
  /\ not_white_space (first_char selector)
  /\ not_white_space (last_char selector)
  /\ (exists out,
        performSearch net dom sched searchState = Some out
        /\ SearchState.selector (state out) = selector
        /\ forall dom' sched' searchState',
             selector_input dom' = Some (SearchState.selector (state out)) ->
             exists out',
               performSearch net dom' sched' searchState' = Some out'
               /\ SearchState.selector (state out') = selector).
Proof.
  intros Hready. pose proof Hready as (value & data & Hin & Htrim & Hne & Hcs & Hu & Hnil).
  assert (Hfix : JS.trim selector = selector)
    by (rewrite <- Htrim; apply trim_idempotent).
  split; [exact Hfix|]. split; [|split].
  - rewrite <- Htrim. unfold JS.trim. rewrite trimEnd_first; apply trimStart_first.
  - rewrite <- Htrim. apply trimEnd_last.
  - destruct (performSearch_run net dom sched selector data_urls Hready searchState)
      as (out & Hout & Hstate & _).
    exists out. split; [exact Hout|].
    rewrite Hstate. cbn [completed SearchState.selector]. split; [reflexivity|].
    intros dom' sched' searchState' Hin'.
    assert (Hready' : ready net dom' selector data_urls).
    { exists selector, data. repeat split; assumption. }
    destruct (performSearch_run net dom' sched' selector data_urls Hready' searchState')
      as (out' & Hout' & Hstate' & _).
    exists out'. split; [exact Hout'|]. now rewrite Hstate'.
Qed.

Lemma stored_selector_is_trimmed_witness :
  ready (Mini.server Mini.two_pages Mini.two_site) (Mini.dom "  h1 ") "h1"
        Mini.two_pages
  /\ JS.trim "h1" = "h1"
  /\ not_white_space (first_char "h1")
  /\ not_white_space (last_char "h1")
  /\ exists out,
       performSearch (Mini.server Mini.two_pages Mini.two_site) (Mini.dom "  h1 ")
                     Mini.fifo onLoad = Some out
       /\ SearchState.selector (state out) = "h1"
       /\ forall dom' sched' searchState',
            selector_input dom' = Some (SearchState.selector (state out)) ->
            exists out',
              performSearch (Mini.server Mini.two_pages Mini.two_site) dom' sched'
                            searchState' = Some out'
              /\ SearchState.selector (state out') = "h1".
Proof.
  assert (Hr : ready (Mini.server Mini.two_pages Mini.two_site) (Mini.dom "  h1 ")
                     "h1" Mini.two_pages) by sample_ready.
  split; [exact Hr|].
  exact (stored_selector_is_trimmed
           (Mini.server Mini.two_pages Mini.two_site) (Mini.dom "  h1 ") Mini.fifo
           onLoad "h1" Mini.two_pages Hr).
Defined.

(** *** What the user sees *)

Lemma render_none_iff (searchState : SearchState.t)
  (data_urls : option (list UrlData.t)) :
  render searchState data_urls = None <-> has_pages data_urls = false.
Proof.
  unfold render, has_pages.
  destruct data_urls as [[|u us]|]; split; intros H; try reflexivity;
    discriminate H.
Qed.

(** X11.  Whatever the session held before, once a search starts the
    controls are rendered disabled with the label "Searching...", without
    the error box and without the table of the previous search.  Once it is
    over the input holds the trimmed selector, input and button are enabled
    again, the label is "Search", no error box is shown, the table is shown
    exactly when there is a result, and both triggers start a search
    again. *)
Theorem controls_during_and_after_search {browser : Browser} (net : Network)
  (dom : Dom) (sched : nat -> list nat) (searchState : SearchState.t)
  (selector : string) (data_urls : list UrlData.t) :
  ready net dom selector data_urls ->
  exists out started,
    performSearch net dom sched searchState = Some out
    /\ running out = Some started
    /\ render started (Some data_urls)
       = Some {| input_value := selector; input_disabled := true;
                 button_disabled := true; button_label := "Searching...";
                 error_box := None; results_table := None |}
    /\ exists view,
         render (state out) (Some data_urls) = Some view
         /\ input_value view = selector
         /\ input_disabled view = false
         /\ button_disabled view = false
         /\ button_label view = "Search"
         /\ error_box view = None
         /\ (results_table view = None <-> SearchState.results (state out) = [])
         /\ on_click view = CallPerformSearch
         /\ on_keypress "Enter" (state out) = CallPerformSearch.
Proof.
  intros Hready.
  destruct (performSearch_run net dom sched selector data_urls Hready searchState)
    as (out & Hout & Hstate & Hrun & _).
  destruct Hready as (_ & _ & _ & _ & _ & _ & _ & Hnil).
  destruct data_urls as [|u us]; [contradiction|].
  exists out. eexists. split; [exact Hout|]. split; [exact Hrun|].
  split; [reflexivity|].
  rewrite Hstate. eexists. split; [reflexivity|].
  cbn [input_value input_disabled button_disabled button_label error_box
       results_table completed SearchState.selector SearchState.isSearching
       SearchState.error SearchState.results JS.truthy].
  repeat split.
  - destruct (sort_results _); [reflexivity|discriminate].
  - intros ->. reflexivity.
Qed.

Lemma controls_during_and_after_search_witness :
  ready (Mini.server Mini.two_pages Mini.two_site) (Mini.dom "h1") "h1" Mini.two_pages
  /\ exists out started,
       performSearch (Mini.server Mini.two_pages Mini.two_site) (Mini.dom "h1")
                     Mini.fifo Mini.busy = Some out
       /\ running out = Some started
       /\ render started (Some Mini.two_pages)
          = Some {| input_value := "h1"; input_disabled := true;
                    button_disabled := true; button_label := "Searching...";
                    error_box := None; results_table := None |}
       /\ exists view,
            render (state out) (Some Mini.two_pages) = Some view
            /\ input_value view = "h1"
            /\ input_disabled view = false
            /\ button_disabled view = false
            /\ button_label view = "Search"
            /\ error_box view = None
            /\ (results_table view = None <-> SearchState.results (state out) = [])
            /\ on_click view = CallPerformSearch
            /\ on_keypress "Enter" (state out) = CallPerformSearch.
Proof.
  assert (Hr : ready (Mini.server Mini.two_pages Mini.two_site) (Mini.dom "h1")
                     "h1" Mini.two_pages) by sample_ready.
  split; [exact Hr|].
  exact (controls_during_and_after_search
           (Mini.server Mini.two_pages Mini.two_site) (Mini.dom "h1") Mini.fifo
           Mini.busy "h1" Mini.two_pages Hr).
Defined.

(** X12.  In the table of a finished search the header shows the number
    of results and the sum of their counts, and there is one row per
    result, in the order of the results.  Every row shows status 200 in the
    colour for a successful status; the colour for a failed status is never
    used.  The title shown is the title of the result, and the "N/A"
    fallback is only used for a page without title whose URL is the empty
    string. *)
Theorem table_rows_after_search {browser : Browser} (net : Network) (dom : Dom)
  (sched : nat -> list nat) (searchState : SearchState.t) (selector : string)
  (data_urls : list UrlData.t) :
  ready net dom selector data_urls ->
  exists out,
    performSearch net dom sched searchState = Some out
    /\ fst (fst (renderResults (state out)))
       = List.length (SearchState.results (state out))
    /\ snd (fst (renderResults (state out)))
       = sum_counts (SearchState.results (state out))
    /\ map row_url (snd (renderResults (state out)))
       = map Result.url (SearchState.results (state out))
    /\ map row_count (snd (renderResults (state out)))
       = map Result.count (SearchState.results (state out))
    /\ (forall row, In row (snd (renderResults (state out))) ->
          row_status row = 200
          /\ row_status_color row = "#10b981"
          /\ 1 <= row_count row
          /\ (row_url row <> "" -> row_title row <> "" )
          /\ exists r, In r (SearchState.results (state out))
                       /\ row = result_row r
                       /\ (row_url row <> "" ->
                           row_title row = JS.to_string (Result.title r))).
Proof.
  intros Hready.
  destruct (performSearch_run net dom sched selector data_urls Hready searchState)
    as (out & Hout & Hstate & _).
  exists out. split; [exact Hout|].
  unfold renderResults. cbn [fst snd]. rewrite !map_map.
  split; [reflexivity|].
  split; [unfold totalMatches; rewrite fold_left_counts; lia|].
  split; [reflexivity|]. split; [reflexivity|].
  intros row Hrow. apply in_map_iff in Hrow as (r & <- & Hr).
  pose proof Hr as Hr'. rewrite Hstate in Hr'.
  cbn [completed SearchState.results] in Hr'.
  apply results_origin in Hr' as (u & _ & Hu).
  apply page_matches_shape in Hu as (He & Hshape & Hpos & _).
  pose proof (f_equal Result.url Hshape) as Hurl.
  pose proof (f_equal Result.status_code Hshape) as Hstatus.
  pose proof (f_equal Result.title Hshape) as Htitle.
  cbn [Result.url Result.status_code Result.title] in Hurl, Hstatus, Htitle.
  assert (H200 : Result.status_code r = 200).
  { rewrite Hstatus. unfold eligible in He.
    apply andb_true_iff in He as [He _]. now apply Z.eqb_eq. }
  assert (Hshown : Result.url r <> "" ->
                   JS.truthy (Result.title r) = true).
  { intros Hne. rewrite Htitle, <- Hurl. unfold JS.or.
    destruct (JS.truthy (UrlData.title u)) eqn:Ht; [exact Ht|].
    cbn [JS.truthy]. destruct (String.eqb_spec (Result.url r) "");
      [contradiction|reflexivity]. }
  unfold result_row. cbn [row_status row_status_color row_count row_url row_title].
  rewrite H200. cbn [Z.eqb Pos.eqb].
  split; [reflexivity|]. split; [reflexivity|]. split; [lia|]. split.
  - intros Hne. rewrite (or_truthy _ _ (Hshown Hne)).
    specialize (Hshown Hne). destruct (Result.title r) as [| |t]; try discriminate.
    cbn [JS.truthy JS.to_string] in *.
    destruct (String.eqb_spec t ""); [discriminate|assumption].
  - exists r. split; [exact Hr|]. split; [now rewrite H200|].
    intros Hne. now rewrite (or_truthy _ _ (Hshown Hne)).
Qed.

Lemma table_rows_after_search_witness :
  ready (Mini.server Mini.three_pages Mini.three_site) (Mini.dom "h1") "h1"
        Mini.three_pages
  /\ exists out,
       performSearch (Mini.server Mini.three_pages Mini.three_site) (Mini.dom "h1")
                     Mini.fifo onLoad = Some out
       /\ renderResults (state out)
          = (2%nat, 7,
             [ {| row_url := "c"; row_title := "Title of c"; row_count := 5;
                  row_status := 200; row_status_color := "#10b981" |};
               {| row_url := "a"; row_title := "Title of a"; row_count := 2;
                  row_status := 200; row_status_color := "#10b981" |} ]).
Proof.
  assert (Hr : ready (Mini.server Mini.three_pages Mini.three_site) (Mini.dom "h1")
                     "h1" Mini.three_pages) by sample_ready.
  split; [exact Hr|].
  destruct (table_rows_after_search
              (Mini.server Mini.three_pages Mini.three_site) (Mini.dom "h1")
              Mini.fifo onLoad "h1" Mini.three_pages Hr)
    as (out & Hout & _).
  exists out. split; [exact Hout|].
  vm_compute in Hout. injection Hout as <-. reflexivity.
Defined.

(** *** The lifecycle hooks *)

(** X13.  A data update never interferes with a search.  While a search
    is running, and after a search without results, [onDataUpdate] renders
    nothing.  After a search with results it renders, provided the tab is
    active and has its container, the finished session against the new
    inventory: the same results with their total, the selector, enabled
    controls and no error box.  It sends no request and leaves the session
    as it is, so the search is not run again. *)
Theorem data_update_keeps_the_search {browser : Browser} (net : Network) (dom : Dom)
  (sched : nat -> list nat) (searchState : SearchState.t) (selector : string)
  (data_urls : list UrlData.t) :
  ready net dom selector data_urls ->
  exists out started,
    performSearch net dom sched searchState = Some out
    /\ running out = Some started
    /\ (forall plugin data,
          Plugin.searchState plugin = started -> onDataUpdate plugin data = None)
    /\ (forall plugin data,
          Plugin.searchState plugin = state out ->
          SearchState.results (state out) = [] ->
          onDataUpdate plugin data = None)
    /\ (forall plugin data,
          Plugin.searchState plugin = state out ->
          SearchState.results (state out) <> [] ->
          onDataUpdate plugin data
          = if Plugin.isActive plugin && Plugin.container plugin
            then Some (render (state out) data) else None)
    /\ (forall plugin data view,
          Plugin.searchState plugin = state out ->
          onDataUpdate plugin data = Some (Some view) ->
          results_table view
          = Some (SearchState.results (state out),
                  sum_counts (SearchState.results (state out)))
          /\ input_value view = selector
          /\ button_disabled view = false
          /\ error_box view = None).
Proof.
  intros Hready.
  destruct (performSearch_run net dom sched selector data_urls Hready searchState)
    as (out & Hout & Hstate & Hrun & _).
  destruct Hready as (_ & _ & _ & _ & Hne & _).
  assert (Htruthy : JS.truthy (Str selector) = true).
  { cbn [JS.truthy]. destruct (String.eqb_spec selector ""); [contradiction|reflexivity]. }
  exists out. eexists. split; [exact Hout|]. split; [exact Hrun|].
  split; [|split; [|split]].
  - intros plugin data Hp. unfold onDataUpdate. rewrite Hp.
    cbn [SearchState.results SearchState.selector List.length Nat.ltb Nat.leb].
    rewrite andb_false_r. now destruct (_ && _).
  - intros plugin data Hp Hnil. unfold onDataUpdate. rewrite Hp, Hnil.
    cbn [List.length Nat.ltb Nat.leb]. rewrite andb_false_r. now destruct (_ && _).
  - intros plugin data Hp Hres. unfold onDataUpdate. rewrite Hp.
    rewrite Hstate in *. cbn [completed SearchState.selector SearchState.results] in *.
    rewrite Htruthy. destruct (sort_results _) as [|r rs]; [contradiction|].
    reflexivity.
  - intros plugin data view Hp Hview. unfold onDataUpdate in Hview. rewrite Hp in Hview.
    destruct (Plugin.isActive plugin && Plugin.container plugin); [|discriminate].
    destruct (JS.truthy _ && _) eqn:Hc; [|discriminate].
    injection Hview as Hview. apply andb_true_iff in Hc as [_ Hc].
    unfold render in Hview. destruct data as [[|d ds]|]; try discriminate.
    injection Hview as <-.
    cbn [results_table input_value button_disabled error_box].
    rewrite Hstate in *.
    cbn [completed SearchState.selector SearchState.results SearchState.error
         SearchState.isSearching JS.truthy] in *.
    destruct (sort_results _) as [|r rs]; [discriminate Hc|].
    repeat split. unfold totalMatches. rewrite fold_left_counts. reflexivity.
Qed.

Lemma data_update_keeps_the_search_witness :
  ready (Mini.server Mini.two_pages Mini.two_site) (Mini.dom "h1") "h1" Mini.two_pages
  /\ exists out started,
       performSearch (Mini.server Mini.two_pages Mini.two_site) (Mini.dom "h1")
                     Mini.fifo onLoad = Some out
       /\ running out = Some started
       /\ onDataUpdate {| Plugin.searchState := started; Plugin.container := true;
                          Plugin.isActive := true |} (Some Mini.six_pages) = None
       /\ onDataUpdate {| Plugin.searchState := state out; Plugin.container := true;
                          Plugin.isActive := true |} (Some Mini.six_pages)
          = Some (render (state out) (Some Mini.six_pages)).
Proof.
  assert (Hr : ready (Mini.server Mini.two_pages Mini.two_site) (Mini.dom "h1")
                     "h1" Mini.two_pages) by sample_ready.
  split; [exact Hr|].
  destruct (data_update_keeps_the_search
              (Mini.server Mini.two_pages Mini.two_site) (Mini.dom "h1")
              Mini.fifo onLoad "h1" Mini.two_pages Hr)
    as (out & started & Hout & Hrun & Hbusy & _ & Hdone & _).
  exists out, started. split; [exact Hout|]. split; [exact Hrun|]. split.
  - apply Hbusy. reflexivity.
  - rewrite Hdone; [reflexivity|reflexivity|].
    vm_compute in Hout. injection Hout as <-. discriminate.
Defined.

(** X14.  [onTabActivate] records the container and leaves the session
    alone.  It asks the server for the crawl status only when it was handed
    no page, and then uses the server's pages if there are any.  It shows
    the empty state exactly when neither the data it was handed nor the
    server provides a page; a failed request is only logged and counts as
    no page.  Otherwise it shows the controls for the current session. *)
Theorem onTabActivate_shows_pages_or_empty_state (net : Network) (plugin : Plugin.t)
  (data_urls : option (list UrlData.t)) :
  Plugin.container (fst (fst (onTabActivate net plugin data_urls))) = true
  /\ Plugin.searchState (fst (fst (onTabActivate net plugin data_urls)))
     = Plugin.searchState plugin
  /\ Plugin.isActive (fst (fst (onTabActivate net plugin data_urls)))
     = Plugin.isActive plugin
  /\ snd (fst (onTabActivate net plugin data_urls))
     = (if has_pages data_urls then [] else [GetCrawlStatus])
  /\ (snd (onTabActivate net plugin data_urls) = None
      <-> has_pages data_urls = false
          /\ forall apiData, crawl_status net = Normal apiData ->
                             has_pages (urls apiData) = false)
  /\ (forall view,
        snd (onTabActivate net plugin data_urls) = Some view ->
        exists pages,
          render (Plugin.searchState plugin) (Some pages) = Some view
          /\ pages <> []
          /\ (has_pages data_urls = true -> data_urls = Some pages)
          /\ (has_pages data_urls = false ->
              exists apiData, crawl_status net = Normal apiData
                              /\ urls apiData = Some pages)).
Proof.
  unfold onTabActivate.
  destruct (has_pages data_urls) eqn:Hd; cbn [negb fst snd Plugin.container
    Plugin.searchState Plugin.isActive].
  - split; [reflexivity|]. split; [reflexivity|]. split; [reflexivity|].
    split; [reflexivity|]. split.
    + rewrite render_none_iff, Hd. split; [discriminate|]. intros [H _]. discriminate H.
    + intros view Hview. unfold has_pages in Hd.
      destruct data_urls as [[|u us]|]; try discriminate Hd.
      exists (u :: us). split; [exact Hview|]. split; [discriminate|].
      split; [reflexivity|discriminate].
  - split; [reflexivity|]. split; [reflexivity|]. split; [reflexivity|].
    split; [reflexivity|].
    destruct (crawl_status net) as [apiData|e] eqn:Hcs.
    + destruct (has_pages (urls apiData)) eqn:Ha.
      * split.
        -- rewrite render_none_iff, Ha. split; [discriminate|].
           intros [_ H]. specialize (H apiData eq_refl). congruence.
        -- intros view Hview. unfold has_pages in Ha.
           destruct (urls apiData) as [[|u us]|] eqn:Hu; try discriminate Ha.
           exists (u :: us). split; [exact Hview|]. split; [discriminate|].
           split; [discriminate|]. intros _. exists apiData. now split.
      * split.
        -- rewrite render_none_iff, Hd. split; [|reflexivity].
           intros _. split; [reflexivity|]. intros a Ha'. injection Ha' as <-. exact Ha.
        -- intros view Hview.
           assert (Hnone : render (Plugin.searchState plugin) data_urls = None)
             by now apply render_none_iff.
           congruence.
    + split.
      * rewrite render_none_iff, Hd. split; [|reflexivity].
        intros _. split; [reflexivity|]. intros a Ha. discriminate Ha.
      * intros view Hview.
        assert (Hnone : render (Plugin.searchState plugin) data_urls = None)
          by now apply render_none_iff.
        congruence.
Qed.
